(** * Goldleaf configuration handling: [cfg_Settings.cpp] and [ui_Utils.hpp]

    A shallow embedding of the settings load/save code of Goldleaf and of
    the helpers it calls, with the properties of its specification.

    Layout:
    - [Json]: the part of the JSON container the code relies on
      (objects as string-keyed maps, arrays, typed reads that can throw);
    - [ColorCodec]: [ColorToHex] and the decoder it is paired with;
    - [Cfg]: [Settings], [Save], [ProcessSettings], [PathForResource],
      [ApplyScrollBarColor], [ApplyProgressBarColor], [GetLanguage];
    - [Ui]: [ComputeDefaultMenuItemCount];
    - the theorems. *)

From Stdlib Require Import ZArith Ascii String.
From Stdlib.Strings Require Import Byte.
From stdpp Require Import base option list strings gmap fin_maps.

Set Warnings "-register-all".
Local Open Scope string_scope.
Local Open Scope list_scope.

(** ** Outcomes of fallible code *)

(** What can end a call early.  The code under study has no [try]/[catch]:
    every exception leaves the function it was raised in. *)
Inductive failure : Type :=
| type_error (id : nat)
    (* the JSON container's type_error exception, with its number *)
| missing_key (key : string)
    (* read-only [operator[]] with a key the object lacks: the container
       only asserts the key is there, the behaviour is undefined *)
| missing_index (i : nat)
    (* read-only [operator[]] with an index past the end of the array: not
       checked, the behaviour is undefined *)
| decode_error (text : string)
    (* the color decoder was handed malformed text *)
| unreadable_document
    (* the storage adapter could not read or parse a document *)
| fatal_assert.
    (* GLEAF_RC_ASSERT / GLEAF_ASSERT_TRUE failed: the process stops *)

Inductive result (A : Type) : Type :=
| Ok (a : A)
| Fail (e : failure).
Arguments Ok {A} a.
Arguments Fail {A} e.

#[global] Instance result_ret : MRet result := fun A a => Ok a.
#[global] Instance result_bind : MBind result := fun A B f m =>
  match m with
  | Ok a => f a
  | Fail e => Fail e
  end.

Definition is_Ok {A} (m : result A) : Prop := ∃ a, m = Ok a.

(** ** The JSON container *)

Module Json.

(** A JSON value.  Objects are maps with unique string keys, as in the
    container's default object type; numbers are the integer kinds only
    (floating-point numbers are outside this model). *)
Inductive json : Type :=
| JNull
| JBool (b : bool)
| JInt (z : Z)
| JString (s : string)
| JArray (items : list json)
| JObject (members : gmap string json).

(** [JSON::object()] *)
Definition object : json := JObject ∅.

(** [j.count(key)]: 1 or 0 for an object, 0 for every other value. *)
Definition count (j : json) (key : string) : bool :=
  match j with
  | JObject m => bool_decide (is_Some (m !! key))
  | _ => false
  end.

(** [j[key]] on a [const] value: only an object has members, and the
    member has to be there. *)
Definition at_key (j : json) (key : string) : result json :=
  match j with
  | JObject m =>
      match m !! key with
      | Some v => Ok v
      | None => Fail (missing_key key)
      end
  | _ => Fail (type_error 305)
  end.

(** The object stored as member [sect] of a document, and the member [key]
    of that object, when they are there.  The code reads through [at_key]
    and [value]; these two state what a document holds. *)
Definition section (j : json) (sect : string) : option (gmap string json) :=
  match j with
  | JObject m =>
      match m !! sect with
      | Some (JObject sub) => Some sub
      | _ => None
      end
  | _ => None
  end.

Definition member (j : json) (sect key : string) : option json :=
  sub ← section j sect; sub !! key.

(** [j.size()] *)
Definition size (j : json) : nat :=
  match j with
  | JNull => 0
  | JArray l => length l
  | JObject m => base.size m
  | _ => 1
  end.

(** [j[i]] on a [const] value: only an array has items. *)
Definition at_index (j : json) (i : nat) : result json :=
  match j with
  | JArray l =>
      match l !! i with
      | Some v => Ok v
      | None => Fail (missing_index i)
      end
  | _ => Fail (type_error 305)
  end.

(** [j.value(key, default)]: the member converted to the type of the
    default when the key is there, the default otherwise; [j] has to be
    an object.  [conv] is the conversion to the requested type. *)
Definition value {A} (conv : json → result A) (j : json) (key : string)
    (default : A) : result A :=
  match j with
  | JObject m =>
      match m !! key with
      | Some v => conv v
      | None => Ok default
      end
  | _ => Fail (type_error 306)
  end.

(** Conversions [get<T>()] of a member to the requested type. *)
Definition get_string (j : json) : result string :=
  match j with
  | JString s => Ok s
  | _ => Fail (type_error 302)
  end.

Definition get_bool (j : json) : result bool :=
  match j with
  | JBool b => Ok b
  | _ => Fail (type_error 302)
  end.

(** An integer member read into an unsigned field of [bits] bits is
    converted by [static_cast]: it wraps modulo [2^bits]. *)
Definition wrap (bits : Z) (z : Z) : Z := z mod 2 ^ bits.

(** [get<T>()] for an unsigned integer type [T] of [bits] bits.  A type
    that is not one of the container's own number types (here: the 32-bit
    one) also converts a boolean member, to 0 or 1; the container's own
    64-bit unsigned type takes numbers only. *)
Definition get_unsigned (bits : Z) (own_type : bool) (j : json) : result Z :=
  match j with
  | JInt z => Ok (wrap bits z)
  | JBool b => if own_type then Fail (type_error 302) else Ok (Z.b2z b)
  | _ => Fail (type_error 302)
  end.

(** [j[key] = v] on a mutable value: [null] becomes an object first, an
    object gets the member inserted or replaced. *)
Definition set_key (j : json) (key : string) (v : json) : result json :=
  match j with
  | JNull => Ok (JObject {[ key := v ]})
  | JObject m => Ok (JObject (<[ key := v ]> m))
  | _ => Fail (type_error 305)
  end.

(** The value a mutable [j[key]] refers to: a missing member is created
    as [null]. *)
Definition ref_key (j : json) (key : string) : result json :=
  match j with
  | JNull => Ok JNull
  | JObject m => Ok (default JNull (m !! key))
  | _ => Fail (type_error 305)
  end.

(** [j[i] = v] on a mutable value: [null] becomes an array first, and an
    array shorter than [i + 1] is filled up with [null]. *)
Definition set_index (j : json) (i : nat) (v : json) : result json :=
  let store (l : list json) :=
    <[ i := v ]> (l ++ replicate (S i - length l) JNull) in
  match j with
  | JNull => Ok (JArray (store []))
  | JArray l => Ok (JArray (store l))
  | _ => Fail (type_error 305)
  end.

Definition ref_index (j : json) (i : nat) : result json :=
  match j with
  | JNull => Ok JNull
  | JArray l => Ok (default JNull (l !! i))
  | _ => Fail (type_error 305)
  end.

(** [j[k1][k2] = v] *)
Definition set_path2 (j : json) (k1 k2 : string) (v : json) : result json :=
  sub ← ref_key j k1;
  sub' ← set_key sub k2 v;
  set_key j k1 sub'.

(** [j[k1][k2][i][k3] = v] *)
Definition set_path4 (j : json) (k1 k2 : string) (i : nat) (k3 : string)
    (v : json) : result json :=
  s1 ← ref_key j k1;
  s2 ← ref_key s1 k2;
  s3 ← ref_index s2 i;
  s3' ← set_key s3 k3 v;
  s2' ← set_index s2 i s3';
  s1' ← set_key s1 k2 s2';
  set_key j k1 s1'.

End Json.
Import Json.

(** ** Colors and their text form *)

Module ColorCodec.

(** [pu::ui::Color]: four 8-bit channels. *)
Record Color : Type := MkColor { r : byte; g : byte; b : byte; a : byte }.

(** The digits of [%X], by value. *)
Definition hex_digits : string := "0123456789ABCDEF".
Definition hex_digits_lower : string := "0123456789abcdef".

Definition hex_digit (n : N) : ascii :=
  match String.get (N.to_nat n) hex_digits with
  | Some c => c
  | None => "F"%char
  end.

(** One [%02X] conversion of an 8-bit argument: two uppercase digits. *)
Definition fmt_02X (x : byte) : string :=
  let n := Byte.to_N x in
  String (hex_digit (n / 16)) (String (hex_digit (n mod 16)) EmptyString).

(** [ColorToHex]: [snprintf(str, sizeof(str), "#%02X%02X%02X%02X", ...)];
    the nine characters and the terminator fit the 32-byte buffer. *)
Definition ColorToHex (clr : Color) : string :=
  "#" +:+ fmt_02X (r clr) +:+ fmt_02X (g clr) +:+ fmt_02X (b clr)
      +:+ fmt_02X (a clr).

(** The place of [c] in [digits], counted from [n]. *)
Fixpoint digit_index (c : ascii) (digits : string) (n : N) : option N :=
  match digits with
  | EmptyString => None
  | String d rest =>
      if Ascii.eqb c d then Some n else digit_index c rest (N.succ n)
  end.

Definition hex_value (c : ascii) : option N :=
  match digit_index c hex_digits 0 with
  | Some n => Some n
  | None => digit_index c hex_digits_lower 0
  end.

Definition parse_hex2 (hi lo : ascii) : option byte :=
  h ← hex_value hi;
  l ← hex_value lo;
  Byte.of_N (16 * h + l).

(** Modelled from the spec: [pu::ui::Color::FromHex] belongs to the UI
    library and is not part of these sources.  The spec describes it as
    the inverse of the encoder on the fixed-width text [#RRGGBBAA] (two
    hex digits per channel, red first, alpha last) and leaves malformed
    text to the decoder; here malformed text is a decoding failure. *)
Definition FromHex (text : string) : option Color :=
  match text with
  | String "#" (String r1 (String r2 (String g1 (String g2
      (String b1 (String b2 (String a1 (String a2 EmptyString)))))))) =>
      r ← parse_hex2 r1 r2;
      g ← parse_hex2 g1 g2;
      b ← parse_hex2 b1 b2;
      a ← parse_hex2 a1 a2;
      Some (MkColor r g b a)
  | _ => None
  end.

End ColorCodec.
Import ColorCodec.

(** ** What the translation unit takes from its headers *)

(** [cfg_Settings.cpp] includes [cfg_Settings.hpp], [fs_FileSystem.hpp] and
    the platform headers; none of them is part of these sources.  The
    declarations the code uses from them are the members of this class; the
    development holds for every way of filling them in. *)
Class Declarations : Type := {
  (** [enum class Language] and its two code tables *)
  Language : Type;
  English : Language;
  GetLanguageCode : Language → string;
  GetLanguageByCode : string → Language;
  (** the platform's [SetLanguage], [setMakeLanguage] (a failed [Result] is
      [None]) and [GetLanguageBySystemLanguage] *)
  SetLanguage : Type;
  setMakeLanguage : Z → option SetLanguage;
  GetLanguageBySystemLanguage : SetLanguage → Language;
  (** the members [Settings settings = {}] leaves value-initialized *)
  Language_zero : Language;
  Color_zero : Color;
  (** the path of the settings document on the SD card *)
  GLEAF_PATH_SETTINGS_FILE : string;
}.

(** ** Storage *)

Module Fs.

Inductive content : Type :=
| Document (j : json)
| Malformed.

Inductive entry : Type :=
| File (c : content)
| Directory.

(** Modelled from the spec: [fs::Explorer] ([fs_FileSystem.hpp]) is not
    part of these sources.  The spec gives a storage adapter one root with
    a file-existence check, delete, structured read, structured write and
    absolute-path resolution; a missing document reads as "all sections
    absent", a malformed one is an error handed to the caller.  A file is
    modelled by the document it holds; [MakeAbsolute] is left open. *)
Record Explorer : Type := MkExplorer {
  entries : gmap string entry;
  MakeAbsolute : string → string;
}.

(** Modelled from the spec: the file-existence check of the absent
    [fs::Explorer], true for a regular file only. *)
Definition IsFile (exp : Explorer) (path : string) : bool :=
  match entries exp !! path with
  | Some (File _) => true
  | _ => false
  end.

(** Modelled from the spec: the delete operation of the absent
    [fs::Explorer]. *)
Definition DeleteFile (exp : Explorer) (path : string) : Explorer :=
  if IsFile exp path
  then MkExplorer (delete path (entries exp)) (MakeAbsolute exp)
  else exp.

(** Modelled from the spec: the structured write of the absent
    [fs::Explorer]; the file then holds the document. *)
Definition WriteJSON (exp : Explorer) (path : string) (j : json) : Explorer :=
  MkExplorer (<[ path := File (Document j) ]> (entries exp))
             (MakeAbsolute exp).

(** Modelled from the spec: the structured read of the absent
    [fs::Explorer]; a missing document is the empty object. *)
Definition ReadJSON (exp : Explorer) (path : string) : result json :=
  match entries exp !! path with
  | Some (File (Document j)) => Ok j
  | Some (File Malformed) => Fail unreadable_document
  | _ => Ok Json.object
  end.

End Fs.
Import Fs.

(** ** The two widgets *)

Module Widgets.

(** [pu::ui::elm::Menu] and [pu::ui::elm::ProgressBar] belong to the UI
    library.  Each is modelled by the color its setter assigns and by the
    rest of its state, which the setter does not touch. *)
Record Menu (Rest : Type) : Type := MkMenu {
  menu_scrollbar_color : Color;
  menu_rest : Rest;
}.
Record ProgressBar (Rest : Type) : Type := MkProgressBar {
  bar_progress_color : Color;
  bar_rest : Rest;
}.
Arguments MkMenu {Rest}.
Arguments menu_scrollbar_color {Rest}.
Arguments menu_rest {Rest}.
Arguments MkProgressBar {Rest}.
Arguments bar_progress_color {Rest}.
Arguments bar_rest {Rest}.

Definition SetScrollbarColor {Rest} (clr : Color) (menu : Menu Rest)
    : Menu Rest :=
  MkMenu clr (menu_rest menu).
Definition SetProgressColor {Rest} (clr : Color) (p_bar : ProgressBar Rest)
    : ProgressBar Rest :=
  MkProgressBar clr (bar_rest p_bar).

End Widgets.
Import Widgets.

(** ** [namespace cfg] *)

Module Cfg.
Section WithDeclarations.
Context `{!Declarations}.

(** [ui::ColorScheme], as far as this file uses it. *)
Record ColorScheme : Type := MkColorScheme {
  bg : Color;
  base : Color;
  base_focus : Color;
  text : Color;
}.

Definition set_bg (v : Color) (c : ColorScheme) : ColorScheme :=
  MkColorScheme v (base c) (base_focus c) (text c).
Definition set_base (v : Color) (c : ColorScheme) : ColorScheme :=
  MkColorScheme (bg c) v (base_focus c) (text c).
Definition set_base_focus (v : Color) (c : ColorScheme) : ColorScheme :=
  MkColorScheme (bg c) (base c) v (text c).
Definition set_text (v : Color) (c : ColorScheme) : ColorScheme :=
  MkColorScheme (bg c) (base c) (base_focus c) v.

Record WebBookmark : Type := MkWebBookmark {
  name : string;
  url : string;
}.

(** [struct Settings].  The 32-bit [menu_item_size] and the 64-bit
    buffer sizes are integers kept in range by the assignments below
    ([Json.wrap]) and by [Settings_in_range]. *)
Record Settings : Type := MkSettings {
  has_custom_lang : bool;
  custom_lang : Language;
  has_external_romfs : bool;
  external_romfs : string;
  use_12h_time : bool;
  ignore_hidden_files : bool;
  has_custom_scheme : bool;
  custom_scheme : ColorScheme;
  menu_item_size : Z;
  has_scrollbar_color : bool;
  scrollbar_color : Color;
  has_progressbar_color : bool;
  progressbar_color : Color;
  ignore_required_fw_ver : bool;
  show_deletion_prompt_after_install : bool;
  copy_buffer_max_size : Z;
  decrypt_buffer_max_size : Z;
  bookmarks : list WebBookmark;
}.

Definition menu_item_size_bits : Z := 32.
Definition buffer_size_bits : Z := 64.

Definition Settings_in_range (s : Settings) : Prop :=
  (0 ≤ menu_item_size s < 2 ^ menu_item_size_bits)%Z ∧
  (0 ≤ copy_buffer_max_size s < 2 ^ buffer_size_bits)%Z ∧
  (0 ≤ decrypt_buffer_max_size s < 2 ^ buffer_size_bits)%Z.

(** Assignments to one member. *)
Definition set_has_custom_lang (v : bool) (s : Settings) : Settings :=
  MkSettings v (custom_lang s) (has_external_romfs s) (external_romfs s)
    (use_12h_time s) (ignore_hidden_files s) (has_custom_scheme s)
    (custom_scheme s) (menu_item_size s) (has_scrollbar_color s)
    (scrollbar_color s) (has_progressbar_color s) (progressbar_color s)
    (ignore_required_fw_ver s) (show_deletion_prompt_after_install s)
    (copy_buffer_max_size s) (decrypt_buffer_max_size s) (bookmarks s).

Definition set_custom_lang (v : Language) (s : Settings) : Settings :=
  MkSettings (has_custom_lang s) v (has_external_romfs s)
    (external_romfs s) (use_12h_time s) (ignore_hidden_files s)
    (has_custom_scheme s) (custom_scheme s) (menu_item_size s)
    (has_scrollbar_color s) (scrollbar_color s) (has_progressbar_color s)
    (progressbar_color s) (ignore_required_fw_ver s)
    (show_deletion_prompt_after_install s) (copy_buffer_max_size s)
    (decrypt_buffer_max_size s) (bookmarks s).

Definition set_has_external_romfs (v : bool) (s : Settings) : Settings :=
  MkSettings (has_custom_lang s) (custom_lang s) v (external_romfs s)
    (use_12h_time s) (ignore_hidden_files s) (has_custom_scheme s)
    (custom_scheme s) (menu_item_size s) (has_scrollbar_color s)
    (scrollbar_color s) (has_progressbar_color s) (progressbar_color s)
    (ignore_required_fw_ver s) (show_deletion_prompt_after_install s)
    (copy_buffer_max_size s) (decrypt_buffer_max_size s) (bookmarks s).

Definition set_external_romfs (v : string) (s : Settings) : Settings :=
  MkSettings (has_custom_lang s) (custom_lang s) (has_external_romfs s) v
    (use_12h_time s) (ignore_hidden_files s) (has_custom_scheme s)
    (custom_scheme s) (menu_item_size s) (has_scrollbar_color s)
    (scrollbar_color s) (has_progressbar_color s) (progressbar_color s)
    (ignore_required_fw_ver s) (show_deletion_prompt_after_install s)
    (copy_buffer_max_size s) (decrypt_buffer_max_size s) (bookmarks s).

Definition set_use_12h_time (v : bool) (s : Settings) : Settings :=
  MkSettings (has_custom_lang s) (custom_lang s) (has_external_romfs s)
    (external_romfs s) v (ignore_hidden_files s) (has_custom_scheme s)
    (custom_scheme s) (menu_item_size s) (has_scrollbar_color s)
    (scrollbar_color s) (has_progressbar_color s) (progressbar_color s)
    (ignore_required_fw_ver s) (show_deletion_prompt_after_install s)
    (copy_buffer_max_size s) (decrypt_buffer_max_size s) (bookmarks s).

Definition set_ignore_hidden_files (v : bool) (s : Settings) : Settings :=
  MkSettings (has_custom_lang s) (custom_lang s) (has_external_romfs s)
    (external_romfs s) (use_12h_time s) v (has_custom_scheme s)
    (custom_scheme s) (menu_item_size s) (has_scrollbar_color s)
    (scrollbar_color s) (has_progressbar_color s) (progressbar_color s)
    (ignore_required_fw_ver s) (show_deletion_prompt_after_install s)
    (copy_buffer_max_size s) (decrypt_buffer_max_size s) (bookmarks s).

Definition set_has_custom_scheme (v : bool) (s : Settings) : Settings :=
  MkSettings (has_custom_lang s) (custom_lang s) (has_external_romfs s)
    (external_romfs s) (use_12h_time s) (ignore_hidden_files s) v
    (custom_scheme s) (menu_item_size s) (has_scrollbar_color s)
    (scrollbar_color s) (has_progressbar_color s) (progressbar_color s)
    (ignore_required_fw_ver s) (show_deletion_prompt_after_install s)
    (copy_buffer_max_size s) (decrypt_buffer_max_size s) (bookmarks s).

Definition set_custom_scheme (v : ColorScheme) (s : Settings) : Settings :=
  MkSettings (has_custom_lang s) (custom_lang s) (has_external_romfs s)
    (external_romfs s) (use_12h_time s) (ignore_hidden_files s)
    (has_custom_scheme s) v (menu_item_size s) (has_scrollbar_color s)
    (scrollbar_color s) (has_progressbar_color s) (progressbar_color s)
    (ignore_required_fw_ver s) (show_deletion_prompt_after_install s)
    (copy_buffer_max_size s) (decrypt_buffer_max_size s) (bookmarks s).

Definition set_menu_item_size (v : Z) (s : Settings) : Settings :=
  MkSettings (has_custom_lang s) (custom_lang s) (has_external_romfs s)
    (external_romfs s) (use_12h_time s) (ignore_hidden_files s)
    (has_custom_scheme s) (custom_scheme s) v (has_scrollbar_color s)
    (scrollbar_color s) (has_progressbar_color s) (progressbar_color s)
    (ignore_required_fw_ver s) (show_deletion_prompt_after_install s)
    (copy_buffer_max_size s) (decrypt_buffer_max_size s) (bookmarks s).

Definition set_has_scrollbar_color (v : bool) (s : Settings) : Settings :=
  MkSettings (has_custom_lang s) (custom_lang s) (has_external_romfs s)
    (external_romfs s) (use_12h_time s) (ignore_hidden_files s)
    (has_custom_scheme s) (custom_scheme s) (menu_item_size s) v
    (scrollbar_color s) (has_progressbar_color s) (progressbar_color s)
    (ignore_required_fw_ver s) (show_deletion_prompt_after_install s)
    (copy_buffer_max_size s) (decrypt_buffer_max_size s) (bookmarks s).

Definition set_scrollbar_color (v : Color) (s : Settings) : Settings :=
  MkSettings (has_custom_lang s) (custom_lang s) (has_external_romfs s)
    (external_romfs s) (use_12h_time s) (ignore_hidden_files s)
    (has_custom_scheme s) (custom_scheme s) (menu_item_size s)
    (has_scrollbar_color s) v (has_progressbar_color s)
    (progressbar_color s) (ignore_required_fw_ver s)
    (show_deletion_prompt_after_install s) (copy_buffer_max_size s)
    (decrypt_buffer_max_size s) (bookmarks s).

Definition set_has_progressbar_color (v : bool) (s : Settings) : Settings :=
  MkSettings (has_custom_lang s) (custom_lang s) (has_external_romfs s)
    (external_romfs s) (use_12h_time s) (ignore_hidden_files s)
    (has_custom_scheme s) (custom_scheme s) (menu_item_size s)
    (has_scrollbar_color s) (scrollbar_color s) v (progressbar_color s)
    (ignore_required_fw_ver s) (show_deletion_prompt_after_install s)
    (copy_buffer_max_size s) (decrypt_buffer_max_size s) (bookmarks s).

Definition set_progressbar_color (v : Color) (s : Settings) : Settings :=
  MkSettings (has_custom_lang s) (custom_lang s) (has_external_romfs s)
    (external_romfs s) (use_12h_time s) (ignore_hidden_files s)
    (has_custom_scheme s) (custom_scheme s) (menu_item_size s)
    (has_scrollbar_color s) (scrollbar_color s) (has_progressbar_color s)
    v (ignore_required_fw_ver s) (show_deletion_prompt_after_install s)
    (copy_buffer_max_size s) (decrypt_buffer_max_size s) (bookmarks s).

Definition set_ignore_required_fw_ver (v : bool) (s : Settings) : Settings :=
  MkSettings (has_custom_lang s) (custom_lang s) (has_external_romfs s)
    (external_romfs s) (use_12h_time s) (ignore_hidden_files s)
    (has_custom_scheme s) (custom_scheme s) (menu_item_size s)
    (has_scrollbar_color s) (scrollbar_color s) (has_progressbar_color s)
    (progressbar_color s) v (show_deletion_prompt_after_install s)
    (copy_buffer_max_size s) (decrypt_buffer_max_size s) (bookmarks s).

Definition set_show_deletion_prompt_after_install (v : bool) (s : Settings) : Settings :=
  MkSettings (has_custom_lang s) (custom_lang s) (has_external_romfs s)
    (external_romfs s) (use_12h_time s) (ignore_hidden_files s)
    (has_custom_scheme s) (custom_scheme s) (menu_item_size s)
    (has_scrollbar_color s) (scrollbar_color s) (has_progressbar_color s)
    (progressbar_color s) (ignore_required_fw_ver s) v
    (copy_buffer_max_size s) (decrypt_buffer_max_size s) (bookmarks s).

Definition set_copy_buffer_max_size (v : Z) (s : Settings) : Settings :=
  MkSettings (has_custom_lang s) (custom_lang s) (has_external_romfs s)
    (external_romfs s) (use_12h_time s) (ignore_hidden_files s)
    (has_custom_scheme s) (custom_scheme s) (menu_item_size s)
    (has_scrollbar_color s) (scrollbar_color s) (has_progressbar_color s)
    (progressbar_color s) (ignore_required_fw_ver s)
    (show_deletion_prompt_after_install s) v (decrypt_buffer_max_size s)
    (bookmarks s).

Definition set_decrypt_buffer_max_size (v : Z) (s : Settings) : Settings :=
  MkSettings (has_custom_lang s) (custom_lang s) (has_external_romfs s)
    (external_romfs s) (use_12h_time s) (ignore_hidden_files s)
    (has_custom_scheme s) (custom_scheme s) (menu_item_size s)
    (has_scrollbar_color s) (scrollbar_color s) (has_progressbar_color s)
    (progressbar_color s) (ignore_required_fw_ver s)
    (show_deletion_prompt_after_install s) (copy_buffer_max_size s) v
    (bookmarks s).

Definition set_bookmarks (v : list WebBookmark) (s : Settings) : Settings :=
  MkSettings (has_custom_lang s) (custom_lang s) (has_external_romfs s)
    (external_romfs s) (use_12h_time s) (ignore_hidden_files s)
    (has_custom_scheme s) (custom_scheme s) (menu_item_size s)
    (has_scrollbar_color s) (scrollbar_color s) (has_progressbar_color s)
    (progressbar_color s) (ignore_required_fw_ver s)
    (show_deletion_prompt_after_install s) (copy_buffer_max_size s)
    (decrypt_buffer_max_size s) v.

(** *** [Settings::Save] *)

(** The loop over [this->bookmarks]: entry [i] is stored with
    [json["web"]["bookmarks"][i]["name"] = ...] and the same for ["url"]. *)
Fixpoint save_bookmarks (bmks : list WebBookmark) (i : nat)
    (json : Json.json) : result Json.json :=
  match bmks with
  | [] => Ok json
  | bmk :: rest =>
      json ← set_path4 json "web" "bookmarks" i "name" (JString (name bmk));
      json ← set_path4 json "web" "bookmarks" i "url" (JString (url bmk));
      save_bookmarks rest (S i) json
  end.

(** The document [Save] builds before it touches the SD card. *)
Definition Save_document (this : Settings) : result json :=
  let json := Json.object in
  json ← (if has_custom_lang this
          then set_path2 json "general" "customLanguage"
                 (JString (GetLanguageCode (custom_lang this)))
          else Ok json);
  json ← (if has_external_romfs this
          then set_path2 json "general" "externalRomFs"
                 (JString (external_romfs this))
          else Ok json);
  json ← set_path2 json "general" "use12hTime" (JBool (use_12h_time this));
  json ← set_path2 json "general" "ignoreHiddenFiles"
           (JBool (ignore_hidden_files this));
  json ← (if has_custom_scheme this
          then
            json ← set_path2 json "ui" "background"
                     (JString (ColorToHex (bg (custom_scheme this))));
            json ← set_path2 json "ui" "base"
                     (JString (ColorToHex (base (custom_scheme this))));
            json ← set_path2 json "ui" "baseFocus"
                     (JString (ColorToHex (base_focus (custom_scheme this))));
            set_path2 json "ui" "text"
              (JString (ColorToHex (text (custom_scheme this))))
          else Ok json);
  json ← set_path2 json "ui" "menuItemSize" (JInt (menu_item_size this));
  json ← (if has_scrollbar_color this
          then set_path2 json "ui" "scrollBar"
                 (JString (ColorToHex (scrollbar_color this)))
          else Ok json);
  json ← (if has_progressbar_color this
          then set_path2 json "ui" "progressBar"
                 (JString (ColorToHex (progressbar_color this)))
          else Ok json);
  json ← set_path2 json "installs" "ignoreRequiredFwVersion"
           (JBool (ignore_required_fw_ver this));
  json ← set_path2 json "installs" "showDeletionPromptAfterInstall"
           (JBool (show_deletion_prompt_after_install this));
  json ← set_path2 json "installs" "copyBufferMaxSize"
           (JInt (copy_buffer_max_size this));
  json ← set_path2 json "export" "decryptBufferMaxSize"
           (JInt (decrypt_buffer_max_size this));
  save_bookmarks (bookmarks this) 0 json.

(** [Save]: the SD card after the call. *)
Definition Save (this : Settings) (sd_exp : Explorer) : result Explorer :=
  json ← Save_document this;
  let sd_exp := DeleteFile sd_exp GLEAF_PATH_SETTINGS_FILE in
  Ok (WriteJSON sd_exp GLEAF_PATH_SETTINGS_FILE json).

(** *** [Settings::PathForResource] *)

Definition PathForResource (romfs_exp sd_exp : Explorer) (this : Settings)
    (res_path : string) : string :=
  if has_external_romfs this then
    let ext_path := (external_romfs this +:+ "/") +:+ res_path in
    if IsFile sd_exp ext_path then ext_path
    else MakeAbsolute romfs_exp res_path
  else MakeAbsolute romfs_exp res_path.

(** *** [Settings::ReadJSONResource] *)

Definition ReadJSONResource (romfs_exp sd_exp : Explorer) (this : Settings)
    (res_path : string) : result json :=
  if has_external_romfs this then
    let ext_path := (external_romfs this +:+ "/") +:+ res_path in
    if IsFile sd_exp ext_path then ReadJSON sd_exp ext_path
    else ReadJSON romfs_exp (MakeAbsolute romfs_exp res_path)
  else ReadJSON romfs_exp (MakeAbsolute romfs_exp res_path).

(** *** [Settings::ApplyScrollBarColor], [Settings::ApplyProgressBarColor] *)

(** Both methods are non-[const] members taking the widget by
    reference: the state after the call is the pair of [*this] and the
    widget. *)
Definition ApplyScrollBarColor {Rest} (this : Settings) (menu : Menu Rest)
    : Settings * Menu Rest :=
  if has_scrollbar_color this
  then (this, SetScrollbarColor (scrollbar_color this) menu)
  else (this, menu).

Definition ApplyProgressBarColor {Rest} (this : Settings)
    (p_bar : ProgressBar Rest) : Settings * ProgressBar Rest :=
  if has_progressbar_color this
  then (this, SetProgressColor (progressbar_color this) p_bar)
  else (this, p_bar).

(** *** [ProcessSettings] *)

(** [str.empty()] *)
Definition String_empty (str : string) : bool :=
  match str with
  | EmptyString => true
  | String _ _ => false
  end.

(** [str[0]]; for the empty string this is the terminator. *)
Definition String_front (str : string) : ascii :=
  match str with
  | EmptyString => Ascii.zero
  | String c _ => c
  end.

(** [settings_json[sect].value(key, default)] on the [const] document *)
Definition member_value {A} (conv : json → result A) (settings_json : json)
    (sect key : string) (default : A) : result A :=
  sub ← at_key settings_json sect;
  value conv sub key default.

(** Lines 169-178: the text stored in [settings.external_romfs] for a
    non-empty [ext_romfs]. *)
Definition external_romfs_for (ext_romfs : string) : string :=
  if decide (substring 0 6 ext_romfs = "sdmc:/") then ext_romfs
  else
    let external_romfs := "sdmc:" in
    let external_romfs :=
      if decide (String_front ext_romfs ≠ "/"%char)
      then external_romfs +:+ "/"
      else external_romfs in
    external_romfs +:+ ext_romfs.

(** [member = pu::ui::Color::FromHex(clr)] for a non-empty [clr]; the
    decoder's failure leaves [ProcessSettings]. *)
Definition assign_FromHex (clr : string) (assign : Color → Settings → Settings)
    (settings : Settings) : result Settings :=
  match FromHex clr with
  | Some c => Ok (assign c settings)
  | None => Fail (decode_error clr)
  end.

Definition set_scheme (assign : Color → ColorScheme → ColorScheme)
    (c : Color) (settings : Settings) : Settings :=
  set_custom_scheme (assign c (custom_scheme settings)) settings.

(** Lines 158-183 *)
Definition load_general (settings_json : json) (settings : Settings)
    : result Settings :=
  if count settings_json "general" then
    lang ← member_value get_string settings_json "general"
             "customLanguage" EmptyString;
    let settings :=
      if negb (String_empty lang) then
        let custom_lang := GetLanguageByCode lang in
        set_custom_lang custom_lang (set_has_custom_lang true settings)
      else settings in
    ext_romfs ← member_value get_string settings_json "general"
                  "externalRomFs" EmptyString;
    let settings :=
      if negb (String_empty ext_romfs) then
        set_external_romfs (external_romfs_for ext_romfs)
          (set_has_external_romfs true settings)
      else settings in
    v ← member_value get_bool settings_json "general" "use12hTime"
          (use_12h_time settings);
    let settings := set_use_12h_time v settings in
    v ← member_value get_bool settings_json "general" "ignoreHiddenFiles"
          (ignore_hidden_files settings);
    Ok (set_ignore_hidden_files v settings)
  else Ok settings.

(** One of the four scheme colors, lines 186-205. *)
Definition load_scheme_color (settings_json : json) (key : string)
    (assign : Color → ColorScheme → ColorScheme) (settings : Settings)
    : result Settings :=
  clr ← member_value get_string settings_json "ui" key EmptyString;
  if negb (String_empty clr) then
    assign_FromHex clr (set_scheme assign) (set_has_custom_scheme true settings)
  else Ok settings.

(** Lines 185-217 *)
Definition load_ui (settings_json : json) (settings : Settings)
    : result Settings :=
  if count settings_json "ui" then
    settings ← load_scheme_color settings_json "background" set_bg settings;
    settings ← load_scheme_color settings_json "base" set_base settings;
    settings ← load_scheme_color settings_json "baseFocus" set_base_focus
                 settings;
    settings ← load_scheme_color settings_json "text" set_text settings;
    v ← member_value (get_unsigned menu_item_size_bits false) settings_json
          "ui" "menuItemSize" (menu_item_size settings);
    let settings := set_menu_item_size v settings in
    scrollbar_clr ← member_value get_string settings_json "ui" "scrollBar"
                      EmptyString;
    settings ← (if negb (String_empty scrollbar_clr) then
                  assign_FromHex scrollbar_clr set_scrollbar_color
                    (set_has_scrollbar_color true settings)
                else Ok settings);
    pbar_clr ← member_value get_string settings_json "ui" "progressBar"
                 EmptyString;
    if negb (String_empty pbar_clr) then
      assign_FromHex pbar_clr set_progressbar_color
        (set_has_progressbar_color true settings)
    else Ok settings
  else Ok settings.

(** Lines 218-222 *)
Definition load_installs (settings_json : json) (settings : Settings)
    : result Settings :=
  if count settings_json "installs" then
    v ← member_value get_bool settings_json "installs"
          "ignoreRequiredFwVersion" (ignore_required_fw_ver settings);
    let settings := set_ignore_required_fw_ver v settings in
    v ← member_value get_bool settings_json "installs"
          "showDeletionPromptAfterInstall"
          (show_deletion_prompt_after_install settings);
    let settings := set_show_deletion_prompt_after_install v settings in
    v ← member_value (get_unsigned buffer_size_bits true) settings_json
          "installs" "copyBufferMaxSize" (copy_buffer_max_size settings);
    Ok (set_copy_buffer_max_size v settings)
  else Ok settings.

(** Lines 223-225: the test is on ["export"], the read on ["installs"]. *)
Definition load_export (settings_json : json) (settings : Settings)
    : result Settings :=
  if count settings_json "export" then
    v ← member_value (get_unsigned buffer_size_bits true) settings_json
          "installs" "decryptBufferMaxSize" (decrypt_buffer_max_size settings);
    Ok (set_decrypt_buffer_max_size v settings)
  else Ok settings.

(** The body of the loop of lines 228-236, for the indices still to
    visit. *)
Fixpoint load_bookmarks (bookmarks_json : json) (indices : list nat)
    (settings : Settings) : result Settings :=
  match indices with
  | [] => Ok settings
  | i :: rest =>
      item ← at_index bookmarks_json i;
      bmk_name ← value get_string item "name" EmptyString;
      bmk_url ← value get_string item "url" EmptyString;
      let bmk := MkWebBookmark bmk_name bmk_url in
      let settings :=
        if negb (String_empty (url bmk)) && negb (String_empty (name bmk))
        then set_bookmarks (bookmarks settings ++ [bmk]) settings
        else settings in
      load_bookmarks bookmarks_json rest settings
  end.

(** Lines 226-238 *)
Definition load_web (settings_json : json) (settings : Settings)
    : result Settings :=
  if count settings_json "web" then
    web ← at_key settings_json "web";
    if count web "bookmarks" then
      bookmarks_json ← at_key web "bookmarks";
      load_bookmarks bookmarks_json (seq 0 (Json.size bookmarks_json))
        settings
    else Ok settings
  else Ok settings.

(** Lines 136-154: the value before the document is read.
    [random_scheme] is what this call of [ui::GenerateRandomScheme]
    returned. *)
Definition initial_settings (random_scheme : ColorScheme) : Settings :=
  let settings :=
    MkSettings false Language_zero false EmptyString false false false
      (MkColorScheme Color_zero Color_zero Color_zero Color_zero) 0
      false Color_zero false Color_zero false false 0 0 [] in
  let settings := set_has_custom_lang false settings in
  let settings := set_has_external_romfs false settings in
  let settings := set_use_12h_time false settings in
  let settings := set_ignore_hidden_files false settings in
  let settings := set_has_custom_scheme false settings in
  let settings := set_menu_item_size 80 settings in
  let settings := set_has_scrollbar_color false settings in
  let settings := set_has_progressbar_color false settings in
  let settings := set_ignore_required_fw_ver true settings in
  let settings := set_show_deletion_prompt_after_install false settings in
  let settings := set_copy_buffer_max_size (4 * 1024 * 1024) settings in
  let settings := set_decrypt_buffer_max_size (16 * 1024 * 1024) settings in
  set_custom_scheme random_scheme settings.

(** Lines 158-239: the document merged into the initial value. *)
Definition merge_document (random_scheme : ColorScheme) (settings_json : json)
    : result Settings :=
  let settings := initial_settings random_scheme in
  settings ← load_general settings_json settings;
  settings ← load_ui settings_json settings;
  settings ← load_installs settings_json settings;
  settings ← load_export settings_json settings;
  load_web settings_json settings.

Definition ProcessSettings (random_scheme : ColorScheme) (sd_exp : Explorer)
    : result Settings :=
  settings_json ← ReadJSON sd_exp GLEAF_PATH_SETTINGS_FILE;
  merge_document random_scheme settings_json.

(** *** [Settings::GetLanguage] *)

(** The two globals of the anonymous namespace, the host's system
    language code (a failed [Result] is [None]) and the number of times
    the host was asked for it. *)
Record Process : Type := MkProcess {
  g_DefaultLanguage : Language;
  g_DefaultLanguageLoaded : bool;
  host_language_code : option Z;
  host_queries : nat;
}.

Definition Process_start (code : option Z) : Process :=
  MkProcess English false code 0.

Definition EnsureDefaultLanguage (p : Process) : result Process :=
  p ← (if negb (g_DefaultLanguageLoaded p) then
         let asked := S (host_queries p) in
         match host_language_code p with
         | None => Fail fatal_assert
         | Some tmp_lang_code =>
             match setMakeLanguage tmp_lang_code with
             | None => Fail fatal_assert
             | Some sys_lang =>
                 Ok (MkProcess (GetLanguageBySystemLanguage sys_lang) true
                       (host_language_code p) asked)
             end
         end
       else Ok p);
  if g_DefaultLanguageLoaded p then Ok p else Fail fatal_assert.

Definition GetLanguage (this : Settings) (p : Process)
    : result (Language * Process) :=
  if has_custom_lang this then Ok (custom_lang this, p)
  else
    p ← EnsureDefaultLanguage p;
    Ok (g_DefaultLanguage p, p).

(** A run of calls, one per element of [calls]; the languages returned,
    in order, and the process state at the end. *)
Fixpoint GetLanguage_calls (calls : list Settings) (p : Process)
    : result (list Language * Process) :=
  match calls with
  | [] => Ok ([], p)
  | this :: rest =>
      '(lang, p) ← GetLanguage this p;
      '(langs, p) ← GetLanguage_calls rest p;
      Ok (lang :: langs, p)
  end.

(** *** Vocabulary for the properties *)

(** [s] with the members a block assigns taken from [s']. *)
Definition with_general (s' s : Settings) : Settings :=
  set_ignore_hidden_files (ignore_hidden_files s')
    (set_use_12h_time (use_12h_time s')
       (set_external_romfs (external_romfs s')
          (set_has_external_romfs (has_external_romfs s')
             (set_custom_lang (custom_lang s')
                (set_has_custom_lang (has_custom_lang s') s))))).

Definition with_ui (s' s : Settings) : Settings :=
  set_progressbar_color (progressbar_color s')
    (set_has_progressbar_color (has_progressbar_color s')
       (set_scrollbar_color (scrollbar_color s')
          (set_has_scrollbar_color (has_scrollbar_color s')
             (set_menu_item_size (menu_item_size s')
                (set_custom_scheme (custom_scheme s')
                   (set_has_custom_scheme (has_custom_scheme s') s)))))).

Definition with_installs (s' s : Settings) : Settings :=
  set_copy_buffer_max_size (copy_buffer_max_size s')
    (set_show_deletion_prompt_after_install
       (show_deletion_prompt_after_install s')
       (set_ignore_required_fw_ver (ignore_required_fw_ver s') s)).

(** The bookmark an entry of the on-disk array stands for: an object whose
    [name] and [url] are both non-empty strings. *)
Definition kept_bookmark (item : json) : option WebBookmark :=
  match item with
  | JObject m =>
      match m !! "name", m !! "url" with
      | Some (JString n), Some (JString u) =>
          if String_empty n || String_empty u then None
          else Some (MkWebBookmark n u)
      | _, _ => None
      end
  | _ => None
  end.

(** The bookmarks of a document, in the order of its array. *)
Definition document_bookmarks (settings_json : json) : list WebBookmark :=
  match member settings_json "web" "bookmarks" with
  | Some (JArray items) => omap kept_bookmark items
  | _ => []
  end.

(** An array entry that is an object whose [name] and [url], where present,
    are strings. *)
Definition text_or_absent (m : gmap string json) (key : string) : Prop :=
  m !! key = None ∨ ∃ s, m !! key = Some (JString s).

Definition bookmark_entry (item : json) : Prop :=
  ∃ m, item = JObject m ∧ text_or_absent m "name" ∧ text_or_absent m "url".

Definition nonempty_bookmark (bmk : WebBookmark) : Prop :=
  name bmk ≠ EmptyString ∧ url bmk ≠ EmptyString.

(** The text a document gives for one of the colors of section [ui]: a
    string member that is not empty. *)
Definition color_override (settings_json : json) (key : string) : option string :=
  match member settings_json "ui" key with
  | Some (JString clr) => if String_empty clr then None else Some clr
  | _ => None
  end.

Definition has_override (settings_json : json) (key : string) : bool :=
  match color_override settings_json key with
  | Some _ => true
  | None => false
  end.

(** [loaded] is the color a load ends with, for the key [key] and the
    color [random] of the generated scheme. *)
Definition color_loaded (settings_json : json) (key : string)
    (random loaded : Color) : Prop :=
  match color_override settings_json key with
  | Some clr => FromHex clr = Some loaded
  | None => loaded = random
  end.

(** The document [Save] writes, section by section. *)
Definition saved_general (this : Settings) : gmap string json :=
  (if has_custom_lang this
   then <[ "customLanguage" := JString (GetLanguageCode (custom_lang this)) ]>
   else id)
    ((if has_external_romfs this
      then <[ "externalRomFs" := JString (external_romfs this) ]>
      else id)
       (<[ "use12hTime" := JBool (use_12h_time this) ]>
          {[ "ignoreHiddenFiles" := JBool (ignore_hidden_files this) ]})).

Definition saved_scheme (this : Settings) : gmap string json :=
  <[ "background" := JString (ColorToHex (bg (custom_scheme this))) ]>
    (<[ "base" := JString (ColorToHex (base (custom_scheme this))) ]>
       (<[ "baseFocus" := JString (ColorToHex (base_focus (custom_scheme this))) ]>
          {[ "text" := JString (ColorToHex (text (custom_scheme this))) ]})).

Definition saved_ui (this : Settings) : gmap string json :=
  (if has_progressbar_color this
   then <[ "progressBar" := JString (ColorToHex (progressbar_color this)) ]>
   else id)
    ((if has_scrollbar_color this
      then <[ "scrollBar" := JString (ColorToHex (scrollbar_color this)) ]>
      else id)
       (<[ "menuItemSize" := JInt (menu_item_size this) ]>
          (if has_custom_scheme this then saved_scheme this else ∅))).

Definition saved_installs (this : Settings) : gmap string json :=
  <[ "ignoreRequiredFwVersion" := JBool (ignore_required_fw_ver this) ]>
    (<[ "showDeletionPromptAfterInstall" :=
          JBool (show_deletion_prompt_after_install this) ]>
       {[ "copyBufferMaxSize" := JInt (copy_buffer_max_size this) ]}).

Definition saved_export (this : Settings) : gmap string json :=
  {[ "decryptBufferMaxSize" := JInt (decrypt_buffer_max_size this) ]}.

Definition saved_sections (this : Settings) : gmap string json :=
  <[ "general" := JObject (saved_general this) ]>
    (<[ "ui" := JObject (saved_ui this) ]>
       (<[ "installs" := JObject (saved_installs this) ]>
          {[ "export" := JObject (saved_export this) ]})).

Definition bookmark_json (bmk : WebBookmark) : json :=
  JObject (<[ "url" := JString (url bmk) ]> {[ "name" := JString (name bmk) ]}).

Definition saved_web (done : list json) : json :=
  JObject {[ "bookmarks" := JArray done ]}.

Definition saved_document (this : Settings) : json :=
  JObject
    (match bookmarks this with
     | [] => saved_sections this
     | _ :: _ =>
         <[ "web" := saved_web (bookmark_json <$> bookmarks this) ]>
           (saved_sections this)
     end).

(** What a call of [GetLanguage] on [this] returns when the cached default
    language is [cached]. *)
Definition language_for (cached : Language) (this : Settings) : Language :=
  if has_custom_lang this then custom_lang this else cached.

(** *** Vocabulary for the further properties *)

(** One of the sixteen digits [%X] prints. *)
Definition upper_hex_digit (c : ascii) : bool :=
  match digit_index c hex_digits 0 with
  | Some _ => true
  | None => false
  end.

(** [loaded] is what a load ends with for a boolean member read with
    [value(key, default)]. *)
Definition bool_loaded (settings_json : json) (sect key : string)
    (default loaded : bool) : Prop :=
  match member settings_json sect key with
  | Some v => v = JBool loaded
  | None => loaded = default
  end.

(** The same for a member read into a 64-bit size. *)
Definition size_loaded (settings_json : json) (sect key : string)
    (default loaded : Z) : Prop :=
  match member settings_json sect key with
  | Some v => ∃ z, v = JInt z ∧ loaded = wrap buffer_size_bits z
  | None => loaded = default
  end.

(** A value that is not an object. *)
Definition not_object (v : json) : Prop := ∀ sub, v ≠ JObject sub.

(** The language code a document gives: a [customLanguage] member that is a
    non-empty text. *)
Definition language_override (settings_json : json) : option string :=
  match member settings_json "general" "customLanguage" with
  | Some (JString code) => if String_empty code then None else Some code
  | _ => None
  end.

(** What a load of the document [Save] wrote for [this] ends with:
    members behind a clear flag are those of the initial value, the scheme
    then being the one generated for the load; the decrypt buffer size is
    the initial one. *)
Definition reloaded (random_scheme : ColorScheme) (this : Settings) : Settings :=
  MkSettings
    (has_custom_lang this)
    (if has_custom_lang this then custom_lang this else Language_zero)
    (has_external_romfs this)
    (if has_external_romfs this then external_romfs this else EmptyString)
    (use_12h_time this) (ignore_hidden_files this)
    (has_custom_scheme this)
    (if has_custom_scheme this then custom_scheme this else random_scheme)
    (menu_item_size this)
    (has_scrollbar_color this)
    (if has_scrollbar_color this then scrollbar_color this else Color_zero)
    (has_progressbar_color this)
    (if has_progressbar_color this then progressbar_color this else Color_zero)
    (ignore_required_fw_ver this) (show_deletion_prompt_after_install this)
    (copy_buffer_max_size this) (16 * 1024 * 1024)
    (bookmarks this).

End WithDeclarations.
End Cfg.

(** ** [namespace ui] *)

Module Ui.

Definition DefaultMenuHeight : Z := 560.

(** [ComputeDefaultMenuItemCount]: unsigned 32-bit division; dividing by
    zero has no defined result. *)
Definition ComputeDefaultMenuItemCount (menu_item_size : Z) : option Z :=
  if decide (menu_item_size = 0%Z) then None
  else Some (DefaultMenuHeight / menu_item_size)%Z.

End Ui.

(** ** A concrete setting to run the code in *)

Module Sample.

Inductive Lang : Type := En | Es | De.
Inductive SysLang : Type := SysENUS | SysES | SysDE.

Definition code_of (l : Lang) : string :=
  match l with En => "en" | Es => "es" | De => "de" end.

Definition lang_of (code : string) : Lang :=
  if decide (code = "es") then Es
  else if decide (code = "de") then De
  else En.

Definition make_language (code : Z) : option SysLang :=
  match code with
  | 0 => Some SysENUS
  | 1 => Some SysES
  | 2 => Some SysDE
  | _ => None
  end%Z.

Definition lang_of_system (l : SysLang) : Lang :=
  match l with SysENUS => En | SysES => Es | SysDE => De end.

Definition black : Color := MkColor x00 x00 x00 xff.

#[export] Instance declarations : Declarations := {|
  Language := Lang;
  English := En;
  GetLanguageCode := code_of;
  GetLanguageByCode := lang_of;
  SetLanguage := SysLang;
  setMakeLanguage := make_language;
  GetLanguageBySystemLanguage := lang_of_system;
  Language_zero := En;
  Color_zero := black;
  GLEAF_PATH_SETTINGS_FILE := "sdmc:/switch/Goldleaf/settings.json";
|}.

Definition sd_empty : Explorer := MkExplorer ∅ (fun p => "sdmc:/" +:+ p).
Definition romfs : Explorer := MkExplorer ∅ (fun p => "romfs:/" +:+ p).

Definition grey : Color := MkColor x80 x80 x80 xff.
Definition random_scheme : Cfg.ColorScheme :=
  Cfg.MkColorScheme grey grey grey grey.

(** A [Settings] value with every [has_*] flag set that satisfies what the
    load establishes: a prefixed resource root, bookmarks without an empty
    text. *)
Definition full_settings : Cfg.Settings :=
  Cfg.MkSettings true Es true "sdmc:/ext" true false
    true (Cfg.MkColorScheme black grey (MkColor x12 x34 x56 x78) grey) 100
    true (MkColor xab xcd xef x01) true grey false true
    (8 * 1024 * 1024) (16 * 1024 * 1024)
    [Cfg.MkWebBookmark "B" "http://x"; Cfg.MkWebBookmark "C" "http://y"].

(** The same value with an unprefixed resource root, with a bookmark
    whose url is empty, and with another decrypt buffer size. *)
Definition unprefixed_settings : Cfg.Settings :=
  Cfg.set_external_romfs "ext" full_settings.

Definition empty_url_settings : Cfg.Settings :=
  Cfg.set_bookmarks [Cfg.MkWebBookmark "A" EmptyString] full_settings.

Definition small_decrypt_settings : Cfg.Settings :=
  Cfg.set_decrypt_buffer_max_size 1 full_settings.

(** The process once German has been stored as the default language. *)
Definition german_process : Cfg.Process :=
  @Cfg.MkProcess declarations De true (Some 2%Z) 1.

(** An SD card with [sdmc:/ext/foo.json] on it. *)
Definition sd_with_resource : Explorer :=
  MkExplorer {[ "sdmc:/ext/foo.json" := File (Document Json.object) ]}
    (fun p => "sdmc:/" +:+ p).

Definition installs_and_export_document (z : Z) : json :=
  JObject (<[ "installs" := JObject {[ "decryptBufferMaxSize" := JInt z ]} ]>
             {[ "export" := JObject ∅ ]}).

(** A [Settings] value with every [has_*] flag clear. *)
Definition bare_settings : Cfg.Settings :=
  Cfg.MkSettings false De false "themes" true true
    false (Cfg.MkColorScheme black black black black) 64
    false grey false grey true false 4096 1 [].

(** An SD card on which [sdmc:/ext/foo.json] cannot be read. *)
Definition sd_with_bad_resource : Explorer :=
  MkExplorer {[ "sdmc:/ext/foo.json" := File Malformed ]}
    (fun p => "sdmc:/" +:+ p).

(** Documents with plain members, with a bar color, with a language. *)
Definition toggles_document : json :=
  JObject (<[ "general" := JObject {[ "use12hTime" := JBool true ]} ]>
             {[ "installs" :=
                  JObject (<[ "ignoreRequiredFwVersion" := JBool false ]>
                             {[ "copyBufferMaxSize" := JInt (2 ^ 64 + 5) ]}) ]}).

Definition bars_document : json :=
  JObject {[ "ui" := JObject {[ "scrollBar" := JString "#01020304" ]} ]}.

Definition language_document : json :=
  JObject {[ "general" := JObject {[ "customLanguage" := JString "de" ]} ]}.

(** A bookmark array whose entry is a text instead of an object. *)
Definition text_bookmark_document : json :=
  JObject {[ "web" := JObject {[ "bookmarks" := JArray [JString "http://x"] ]} ]}.

(** The documents of the specification's examples. *)
Definition bookmark_entry_json (n u : string) : json :=
  JObject (<[ "url" := JString u ]> {[ "name" := JString n ]}).

Definition bookmarks_document : json :=
  JObject {[ "web" := JObject {[ "bookmarks" :=
    JArray [ bookmark_entry_json "A" EmptyString;
             bookmark_entry_json "B" "http://x" ] ]} ]}.

Definition romfs_document (ext_romfs : string) : json :=
  JObject {[ "general" := JObject {[ "externalRomFs" := JString ext_romfs ]} ]}.

Definition background_document (clr : string) : json :=
  JObject {[ "ui" := JObject {[ "background" := JString clr ]} ]}.

Definition menu_item_size_document (z : Z) : json :=
  JObject {[ "ui" := JObject {[ "menuItemSize" := JInt z ]} ]}.

Definition export_only_document (z : Z) : json :=
  JObject {[ "export" := JObject {[ "decryptBufferMaxSize" := JInt z ]} ]}.

End Sample.


(** * Properties *)

Import Cfg.

(** ** The color codec *)

Lemma parse_hex2_fmt_02X (x : byte) :
  ∃ hi lo, fmt_02X x = String hi (String lo EmptyString)
           ∧ parse_hex2 hi lo = Some x.
Proof. destruct x; do 2 eexists; split; reflexivity. Qed.

Lemma FromHex_ColorToHex (clr : Color) : FromHex (ColorToHex clr) = Some clr.
Proof.
  destruct clr as [cr cg cb ca]. unfold ColorToHex; cbn [r g b a].
  destruct (parse_hex2_fmt_02X cr) as (r1 & r2 & -> & Hr).
  destruct (parse_hex2_fmt_02X cg) as (g1 & g2 & -> & Hg).
  destruct (parse_hex2_fmt_02X cb) as (b1 & b2 & -> & Hb).
  destruct (parse_hex2_fmt_02X ca) as (a1 & a2 & -> & Ha).
  cbv [String.append FromHex]. rewrite Hr, Hg, Hb, Ha. reflexivity.
Qed.

Lemma ColorToHex_not_empty (clr : Color) : String_empty (ColorToHex clr) = false.
Proof. reflexivity. Qed.

(** ** The result monad *)

Lemma bind_Ok {A B} (m : result A) (f : A → result B) (b : B) :
  m ≫= f = Ok b → ∃ a, m = Ok a ∧ f a = Ok b.
Proof. destruct m as [a|e]; cbn; [eauto | discriminate]. Qed.

Lemma is_Ok_Ok {A} (a : A) : is_Ok (Ok a).
Proof. by exists a. Qed.

(** Splits a hypothesis [m ≫= f = Ok b] into the two steps it stands for. *)
Tactic Notation "bind_inv" hyp(H) "as" ident(v) ident(Hv) :=
  apply bind_Ok in H as (v & Hv & H).

Section Properties.
Context `{!Declarations}.

(** ** Storage *)

Lemma ReadJSON_missing (sd_exp : Explorer) (path : string) :
  IsFile sd_exp path = false → ReadJSON sd_exp path = Ok Json.object.
Proof.
  unfold IsFile, ReadJSON. destruct (entries sd_exp !! path) as [[c|]|]; done.
Qed.

Lemma ReadJSON_WriteJSON (sd_exp : Explorer) (path : string) (j : json) :
  ReadJSON (WriteJSON sd_exp path j) path = Ok j.
Proof. unfold ReadJSON, WriteJSON; cbn. by rewrite lookup_insert_eq. Qed.

(** ** Defaults *)

Lemma merge_document_empty (random_scheme : ColorScheme) :
  merge_document random_scheme Json.object = Ok (initial_settings random_scheme).
Proof. reflexivity. Qed.

(** C5.  Loading when the settings document is missing, or is the empty
    document, gives the defaults: menu item size 80, copy buffer 4 MiB,
    decrypt buffer 16 MiB, [ignore_required_fw_ver] set, the other three
    toggles and the five [has_*] flags clear, and no bookmark. *)
Theorem ProcessSettings_defaults (random_scheme : ColorScheme) (sd_exp : Explorer) :
  IsFile sd_exp GLEAF_PATH_SETTINGS_FILE = false
  ∨ entries sd_exp !! GLEAF_PATH_SETTINGS_FILE = Some (File (Document Json.object)) →
  ∃ settings,
    ProcessSettings random_scheme sd_exp = Ok settings
    ∧ menu_item_size settings = 80%Z
    ∧ copy_buffer_max_size settings = (4 * 1024 * 1024)%Z
    ∧ decrypt_buffer_max_size settings = (16 * 1024 * 1024)%Z
    ∧ ignore_required_fw_ver settings = true
    ∧ use_12h_time settings = false
    ∧ ignore_hidden_files settings = false
    ∧ show_deletion_prompt_after_install settings = false
    ∧ has_custom_lang settings = false
    ∧ has_external_romfs settings = false
    ∧ has_custom_scheme settings = false
    ∧ has_scrollbar_color settings = false
    ∧ has_progressbar_color settings = false
    ∧ bookmarks settings = [].
Proof.
  intros Hdoc. exists (initial_settings random_scheme).
  split; [|by repeat split].
  unfold ProcessSettings.
  assert (ReadJSON sd_exp GLEAF_PATH_SETTINGS_FILE = Ok Json.object) as ->.
  { destruct Hdoc as [Hmissing|Hempty].
    - by apply ReadJSON_missing.
    - unfold ReadJSON. by rewrite Hempty. }
  apply merge_document_empty.
Qed.

(** ** Resource lookup *)

(** C6.  [PathForResource] returns [external_romfs + "/" + path] when
    [has_external_romfs] is set and that path is a regular file on the SD
    card; when the flag is clear or the file is not there it returns the
    bundled root's absolute path for the relative path. *)
Theorem PathForResource_precedence (romfs_exp sd_exp : Explorer)
    (this : Settings) (res_path : string) :
  let ext_path := (external_romfs this +:+ "/") +:+ res_path in
  (has_external_romfs this = true ∧ IsFile sd_exp ext_path = true →
     PathForResource romfs_exp sd_exp this res_path = ext_path)
  ∧ (has_external_romfs this = false ∨ IsFile sd_exp ext_path = false →
     PathForResource romfs_exp sd_exp this res_path
     = MakeAbsolute romfs_exp res_path).
Proof.
  intros ext_path. unfold PathForResource. fold ext_path. split.
  - intros [-> ->]. reflexivity.
  - intros [-> | Hfile]; [reflexivity|].
    rewrite Hfile. by destruct (has_external_romfs this).
Qed.

(** ** Widget colors *)

(** C9.  [ApplyScrollBarColor] stores [scrollbar_color] in the menu when
    [has_scrollbar_color] is set and [ApplyProgressBarColor] stores
    [progressbar_color] in the progress bar when [has_progressbar_color] is
    set; with the flag clear the widget is what it was; the settings are
    the same after either call. *)
Theorem Apply_colors_frame {Rest : Type} (this : Settings) (menu : Menu Rest)
    (p_bar : ProgressBar Rest) :
  (ApplyScrollBarColor this menu).1 = this
  ∧ (ApplyProgressBarColor this p_bar).1 = this
  ∧ (ApplyScrollBarColor this menu).2
    = (if has_scrollbar_color this
       then MkMenu (scrollbar_color this) (menu_rest menu)
       else menu)
  ∧ (ApplyProgressBarColor this p_bar).2
    = (if has_progressbar_color this
       then MkProgressBar (progressbar_color this) (bar_rest p_bar)
       else p_bar).
Proof.
  unfold ApplyScrollBarColor, ApplyProgressBarColor.
  destruct (has_scrollbar_color this), (has_progressbar_color this); done.
Qed.

(** ** Reading the document *)

Lemma count_true (j : json) (sect : string) :
  count j sect = true → ∃ m v, j = JObject m ∧ m !! sect = Some v.
Proof.
  destruct j as [| | | | |m]; cbn; try discriminate.
  intros [v Hv]%bool_decide_eq_true. eauto.
Qed.

Lemma count_false (m : gmap string json) (sect : string) :
  count (JObject m) sect = false → m !! sect = None.
Proof.
  cbn. intros Hc%bool_decide_eq_false. by apply eq_None_not_Some.
Qed.

Lemma member_value_Ok {A} (conv : json → result A) (j : json)
    (sect key : string) (d v : A) :
  member_value conv j sect key d = Ok v →
  ∃ sub, section j sect = Some sub
         ∧ match sub !! key with
           | Some x => conv x = Ok v
           | None => v = d
           end.
Proof.
  unfold member_value, at_key, section, value.
  destruct j as [| | | | |m]; try discriminate.
  destruct (m !! sect) as [[| | | | |sub]|]; try discriminate.
  cbn. intros Hv. exists sub. split; [done|].
  destruct (sub !! key); congruence.
Qed.

Lemma member_value_section {A} (conv : json → result A) (j : json)
    (sect key : string) (d : A) (sub : gmap string json) :
  section j sect = Some sub →
  member_value conv j sect key d
  = match sub !! key with
    | Some x => conv x
    | None => Ok d
    end.
Proof.
  unfold member_value, at_key, section, value.
  destruct j as [| | | | |m]; try discriminate.
  destruct (m !! sect) as [[| | | | |sub']|]; try discriminate.
  by intros [= ->].
Qed.

Lemma get_string_Ok (j : json) (s : string) :
  get_string j = Ok s → j = JString s.
Proof. destruct j; cbn; congruence. Qed.

Lemma String_empty_false (s : string) : String_empty s = false ↔ s ≠ EmptyString.
Proof. destruct s; cbn; split; congruence. Qed.

(** A text member read with an empty default: the text when the member is
    a string, empty when there is no such member. *)
Lemma member_value_string_Ok (j : json) (sect key : string) (v : string) :
  member_value get_string j sect key EmptyString = Ok v →
  (member j sect key = Some (JString v))
  ∨ (member j sect key = None ∧ v = EmptyString).
Proof.
  intros (sub & Hsub & Hkey)%member_value_Ok. unfold member. rewrite Hsub; cbn.
  destruct (sub !! key) as [x|]; [left | by right].
  by apply get_string_Ok in Hkey as ->.
Qed.

(** ** What each block of [ProcessSettings] may change *)

Ltac settings_eq :=
  match goal with
  | s : Settings |- _ => destruct s; reflexivity
  end.

Lemma assign_FromHex_Ok (clr : string) (assign : Color → Settings → Settings)
    (s s' : Settings) :
  assign_FromHex clr assign s = Ok s' →
  ∃ c, FromHex clr = Some c ∧ s' = assign c s.
Proof.
  unfold assign_FromHex. destruct (FromHex clr) as [c|]; [|discriminate].
  intros [= <-]. eauto.
Qed.

Lemma load_general_frame (j : json) (s s' : Settings) :
  load_general j s = Ok s' → s' = with_general s' s.
Proof.
  unfold load_general. destruct (count j "general"); [|intros [= <-]; settings_eq].
  intros Hload.
  bind_inv Hload as lang Hlang. bind_inv Hload as ext_romfs Hext.
  bind_inv Hload as t12 Ht12. bind_inv Hload as hidden Hhidden.
  injection Hload as <-.
  destruct (String_empty lang), (String_empty ext_romfs); cbn; settings_eq.
Qed.

Lemma load_scheme_color_Ok (j : json) (key : string)
    (assign : Color → ColorScheme → ColorScheme) (s s' : Settings) :
  load_scheme_color j key assign s = Ok s' →
  ∃ clr, member_value get_string j "ui" key EmptyString = Ok clr
         ∧ if String_empty clr then s' = s
           else ∃ c, FromHex clr = Some c
                     ∧ s' = set_custom_scheme (assign c (custom_scheme s))
                              (set_has_custom_scheme true s).
Proof.
  unfold load_scheme_color. intros Hload. bind_inv Hload as clr Hclr.
  exists clr. split; [done|]. destruct (String_empty clr); cbn in Hload.
  - congruence.
  - apply assign_FromHex_Ok in Hload as (c & Hc & ->). eauto.
Qed.

Lemma load_scheme_color_frame (j : json) (key : string)
    (assign : Color → ColorScheme → ColorScheme) (s s' : Settings) :
  load_scheme_color j key assign s = Ok s' → s' = with_ui s' s.
Proof.
  intros (clr & _ & Hs')%load_scheme_color_Ok.
  destruct (String_empty clr); [subst s'|destruct Hs' as (c & _ & ->)];
    settings_eq.
Qed.

Lemma with_ui_trans (s1 s2 s3 : Settings) :
  s2 = with_ui s2 s1 → s3 = with_ui s3 s2 → s3 = with_ui s3 s1.
Proof. intros -> ->. settings_eq. Qed.

Lemma load_ui_frame (j : json) (s s' : Settings) :
  load_ui j s = Ok s' → s' = with_ui s' s.
Proof.
  unfold load_ui. destruct (count j "ui"); [|intros [= <-]; settings_eq].
  intros Hload.
  bind_inv Hload as s1 H1. bind_inv Hload as s2 H2.
  bind_inv Hload as s3 H3. bind_inv Hload as s4 H4.
  bind_inv Hload as size Hsize. bind_inv Hload as sb_clr Hsb_clr.
  bind_inv Hload as s5 H5. bind_inv Hload as pb_clr Hpb_clr.
  apply load_scheme_color_frame in H1, H2, H3, H4.
  pose proof (with_ui_trans _ _ _ (with_ui_trans _ _ _
                (with_ui_trans _ _ _ H1 H2) H3) H4) as Hscheme.
  assert (s5 = with_ui s5 s) as Hsb.
  { destruct (String_empty sb_clr); cbn in H5.
    - injection H5 as <-. rewrite Hscheme. settings_eq.
    - apply assign_FromHex_Ok in H5 as (c & _ & ->).
      rewrite Hscheme. settings_eq. }
  destruct (String_empty pb_clr); cbn in Hload.
  - by injection Hload as <-.
  - apply assign_FromHex_Ok in Hload as (c & _ & ->).
    rewrite Hsb. settings_eq.
Qed.

Lemma load_installs_frame (j : json) (s s' : Settings) :
  load_installs j s = Ok s' → s' = with_installs s' s.
Proof.
  unfold load_installs.
  destruct (count j "installs"); [|intros [= <-]; settings_eq].
  intros Hload.
  bind_inv Hload as fw Hfw. bind_inv Hload as prompt Hprompt.
  bind_inv Hload as size Hsize. injection Hload as <-. settings_eq.
Qed.

Lemma load_export_frame (j : json) (s s' : Settings) :
  load_export j s = Ok s' →
  s' = set_decrypt_buffer_max_size (decrypt_buffer_max_size s') s.
Proof.
  unfold load_export.
  destruct (count j "export"); [|intros [= <-]; settings_eq].
  intros Hload. bind_inv Hload as size Hsize. injection Hload as <-.
  settings_eq.
Qed.

(** ** The bookmark loop *)

Lemma value_string_Ok (item : json) (key v : string) :
  value get_string item key EmptyString = Ok v →
  ∃ m, item = JObject m
       ∧ (m !! key = Some (JString v) ∨ (m !! key = None ∧ v = EmptyString)).
Proof.
  destruct item as [| | | | |m]; cbn; try discriminate.
  intros Hv. exists m. split; [done|].
  destruct (m !! key) as [x|]; [left|right; split; congruence].
  by apply get_string_Ok in Hv as ->.
Qed.

Lemma load_bookmarks_Ok (items : list json) (k i : nat) (s s' : Settings) :
  i + k = length items →
  load_bookmarks (JArray items) (seq i k) s = Ok s' →
  s' = set_bookmarks (bookmarks s ++ omap kept_bookmark (drop i items)) s.
Proof.
  revert i s s'.
  induction k as [|k IH]; intros i s s' Hlen; cbn [seq load_bookmarks].
  - intros [= <-]. rewrite drop_ge by lia. cbn. rewrite app_nil_r. settings_eq.
  - intros Hload. bind_inv Hload as item Hitem.
    bind_inv Hload as bmk_name Hname. bind_inv Hload as bmk_url Hurl.
    cbn in Hitem. destruct (items !! i) as [item'|] eqn:Hi; [|discriminate].
    injection Hitem as ->.
    apply IH in Hload as ->; [|lia]. clear IH.
    rewrite (drop_S _ _ _ Hi). cbn [omap list_omap].
    apply value_string_Ok in Hname as (m & -> & Hname).
    apply value_string_Ok in Hurl as (m' & [= <-] & Hurl).
    cbn [kept_bookmark name url].
    generalize (omap kept_bookmark (drop (S i) items)); intros rest.
    destruct Hname as [Hn|[Hn ->]], Hurl as [Hu|[Hu ->]]; rewrite Hn, ?Hu;
      destruct s; try destruct bmk_name; try destruct bmk_url; cbn;
      rewrite <- ?app_assoc; reflexivity.
Qed.

Lemma load_web_Ok (j : json) (s s' : Settings) :
  load_web j s = Ok s' →
  s' = set_bookmarks (bookmarks s ++ document_bookmarks j) s.
Proof.
  assert (s = set_bookmarks (bookmarks s ++ []) s) as Hsame.
  { rewrite app_nil_r. settings_eq. }
  unfold load_web, document_bookmarks, member, section.
  destruct (count j "web") eqn:Hweb; cycle 1.
  { intros [= <-]. destruct j as [| | | | |m]; try done.
    by rewrite (count_false _ _ Hweb). }
  apply count_true in Hweb as (m & web & -> & Hweb).
  cbn [at_key]. rewrite Hweb. cbn.
  destruct (count web "bookmarks") eqn:Hbmk; cycle 1.
  { intros [= <-]. destruct web as [| | | | |w]; try done.
    cbn. by rewrite (count_false _ _ Hbmk). }
  apply count_true in Hbmk as (w & bookmarks_json & -> & Hbmk).
  cbn [at_key]. rewrite Hbmk. cbn. rewrite ?Hbmk.
  destruct bookmarks_json as [| | | |items|o]; cbn [Json.size].
  - cbn. by intros [= <-].
  - discriminate.
  - discriminate.
  - discriminate.
  - intros Hload%load_bookmarks_Ok; [|done]. by rewrite drop_0 in Hload.
  - destruct (base.size o); cbn; [by intros [= <-]|discriminate].
Qed.

Lemma load_bookmarks_total (items : list json) (k i : nat) (s : Settings) :
  Forall bookmark_entry items → i + k = length items →
  is_Ok (load_bookmarks (JArray items) (seq i k) s).
Proof.
  intros Hitems. revert i s.
  induction k as [|k IH]; intros i s Hlen; cbn [seq load_bookmarks].
  - apply is_Ok_Ok.
  - destruct (lookup_lt_is_Some_2 items i) as [item Hi]; [lia|].
    cbn [at_key at_index]. rewrite Hi.
    destruct (proj1 (Forall_lookup _ _) Hitems i item Hi)
      as (m & -> & Hname & Hurl).
    cbn. destruct Hname as [->|[n ->]], Hurl as [->|[u ->]]; cbn;
      apply IH; lia.
Qed.

(** ** The whole merge *)

Lemma merge_document_Ok (random_scheme : ColorScheme) (j : json) (st : Settings) :
  merge_document random_scheme j = Ok st →
  ∃ s1 s2 s3 s4,
    load_general j (initial_settings random_scheme) = Ok s1
    ∧ load_ui j s1 = Ok s2
    ∧ load_installs j s2 = Ok s3
    ∧ load_export j s3 = Ok s4
    ∧ load_web j s4 = Ok st.
Proof.
  unfold merge_document. intros Hload.
  bind_inv Hload as s1 H1. bind_inv Hload as s2 H2.
  bind_inv Hload as s3 H3. bind_inv Hload as s4 H4.
  by exists s1, s2, s3, s4.
Qed.

(** Rewrites the state after each block as the state before it with the
    block's own members replaced. *)
Ltac merge_frames Hload :=
  let s1 := fresh "s1" in
  let s2 := fresh "s2" in
  let s3 := fresh "s3" in
  let s4 := fresh "s4" in
  let Hgeneral := fresh "Hgeneral" in
  let Hui := fresh "Hui" in
  let Hinstalls := fresh "Hinstalls" in
  let Hexport := fresh "Hexport" in
  let Hweb := fresh "Hweb" in
  apply merge_document_Ok in Hload
    as (s1 & s2 & s3 & s4 & Hgeneral & Hui & Hinstalls & Hexport & Hweb);
  pose proof Hgeneral as Hgeneral0; apply load_general_frame in Hgeneral;
  pose proof Hui as Hui0; apply load_ui_frame in Hui;
  pose proof Hinstalls as Hinstalls0; apply load_installs_frame in Hinstalls;
  pose proof Hexport as Hexport0; apply load_export_frame in Hexport;
  apply load_web_Ok in Hweb.

(** ** Bookmarks *)

Lemma kept_bookmark_nonempty (item : json) (bmk : WebBookmark) :
  kept_bookmark item = Some bmk → nonempty_bookmark bmk.
Proof.
  unfold kept_bookmark, nonempty_bookmark.
  destruct item as [| | | | |m]; try discriminate.
  destruct (m !! "name") as [[| |  |n| |]|]; try discriminate.
  destruct (m !! "url") as [[| |  |u| |]|]; try discriminate.
  destruct n, u; cbn; try discriminate. intros [= <-]. by cbn.
Qed.

Lemma document_bookmarks_nonempty (j : json) :
  Forall nonempty_bookmark (document_bookmarks j).
Proof.
  unfold document_bookmarks.
  destruct (member j "web" "bookmarks") as [[| | | |items|]|];
    try apply Forall_nil_2.
  apply Forall_forall. intros bmk (item & _ & Hkept)%list_elem_of_omap.
  by eapply kept_bookmark_nonempty.
Qed.

Lemma merge_document_bookmarks (random_scheme : ColorScheme) (j : json)
    (st : Settings) :
  merge_document random_scheme j = Ok st → bookmarks st = document_bookmarks j.
Proof.
  intros Hload. merge_frames Hload.
  subst st. cbn. rewrite Hexport, Hinstalls, Hui, Hgeneral. reflexivity.
Qed.

Lemma load_web_total (j : json) (s : Settings) (items : list json) :
  member j "web" "bookmarks" = Some (JArray items) →
  Forall bookmark_entry items →
  load_web j s = Ok (set_bookmarks (bookmarks s ++ omap kept_bookmark items) s).
Proof.
  intros Hmember Hitems.
  assert (is_Ok (load_web j s)) as [s' Hs'].
  { revert Hmember. unfold member, section, load_web.
    destruct j as [| | | | |m]; try discriminate.
    destruct (m !! "web") as [[| | | | |w]|] eqn:Hweb; try discriminate.
    cbn. intros Hbmk. rewrite (bool_decide_eq_true_2 _ (mk_is_Some _ _ Hweb)).
    rewrite Hweb. cbn.
    rewrite (bool_decide_eq_true_2 _ (mk_is_Some _ _ Hbmk)), Hbmk. cbn.
    apply load_bookmarks_total; [exact Hitems|reflexivity]. }
  rewrite Hs'. apply load_web_Ok in Hs'.
  unfold document_bookmarks in Hs'. rewrite Hmember in Hs'. congruence.
Qed.

(** C4.  Every bookmark a load stores has a non-empty name and a non-empty
    url, and the stored list is the on-disk array, in its order, without the
    entries whose name or url is absent or empty.  Such entries raise no
    error: an array of objects whose name and url are strings or absent
    always loads.  The document with bookmarks (A, empty url) and
    (B, http://x) loads with the one bookmark (B, http://x). *)
Theorem bookmarks_filtered (random_scheme : ColorScheme) :
  (∀ j st, merge_document random_scheme j = Ok st →
     Forall nonempty_bookmark (bookmarks st)
     ∧ bookmarks st = document_bookmarks j)
  ∧ (∀ j s items,
       member j "web" "bookmarks" = Some (JArray items) →
       Forall bookmark_entry items →
       ∃ s', load_web j s = Ok s'
             ∧ bookmarks s' = (bookmarks s ++ omap kept_bookmark items))
  ∧ (∃ st, merge_document random_scheme Sample.bookmarks_document = Ok st
           ∧ bookmarks st = [MkWebBookmark "B" "http://x"]).
Proof.
  split; [|split].
  - intros j st Hload. rewrite (merge_document_bookmarks _ _ _ Hload).
    split; [apply document_bookmarks_nonempty | reflexivity].
  - intros j s items Hmember Hitems. eexists. split.
    + by apply load_web_total.
    + by destruct s.
  - eexists. split; reflexivity.
Qed.

(** ** The external resource root *)

Lemma external_romfs_for_prefix (ext_romfs : string) :
  substring 0 6 (external_romfs_for ext_romfs) = "sdmc:/".
Proof.
  unfold external_romfs_for. case_decide as Hprefix; [done|].
  case_decide as Hfront; [by destruct ext_romfs|].
  destruct ext_romfs as [|c rest]; [done|].
  cbn in Hfront. subst c. by destruct rest.
Qed.

Lemma load_general_romfs (j : json) (s s' : Settings) :
  load_general j s = Ok s' →
  match member j "general" "externalRomFs" with
  | Some (JString e) =>
      if String_empty e
      then has_external_romfs s' = has_external_romfs s
           ∧ external_romfs s' = external_romfs s
      else has_external_romfs s' = true
           ∧ external_romfs s' = external_romfs_for e
  | Some _ => False
  | None => has_external_romfs s' = has_external_romfs s
            ∧ external_romfs s' = external_romfs s
  end.
Proof.
  unfold load_general. destruct (count j "general") eqn:Hcount.
  - intros Hload.
    bind_inv Hload as lang Hlang. bind_inv Hload as ext_romfs Hext.
    bind_inv Hload as t12 Ht12. bind_inv Hload as hidden Hhidden.
    injection Hload as <-.
    apply member_value_string_Ok in Hext as [-> | [-> ->]].
    + destruct (String_empty ext_romfs), (String_empty lang); by cbn.
    + destruct (String_empty lang); by cbn.
  - intros [= <-]. unfold member, section.
    destruct j as [| | | | |m]; try done.
    by rewrite (count_false _ _ Hcount).
Qed.

(** C3.  The text stored for a non-empty [externalRomFs] begins with
    [sdmc:/]: a value that begins with it is kept, any other value gets
    [sdmc:] in front, with a [/] in between when it does not start with
    one; [ext] becomes [sdmc:/ext].  The load stores this text, and
    [has_external_romfs] is set exactly when the member is there and not
    empty. *)
Theorem external_romfs_normalized (random_scheme : ColorScheme) :
  (∀ e, substring 0 6 (external_romfs_for e) = "sdmc:/"
        ∧ (substring 0 6 e = "sdmc:/" → external_romfs_for e = e)
        ∧ (substring 0 6 e ≠ "sdmc:/" →
           external_romfs_for e
           = "sdmc:" +:+ (if decide (String_front e = "/"%char)
                         then EmptyString else "/") +:+ e))
  ∧ external_romfs_for "ext" = "sdmc:/ext"
  ∧ (∀ j st, merge_document random_scheme j = Ok st →
       (has_external_romfs st = true
        ↔ ∃ e, member j "general" "externalRomFs" = Some (JString e)
               ∧ e ≠ EmptyString)
       ∧ (∀ e, member j "general" "externalRomFs" = Some (JString e) →
               e ≠ EmptyString →
               external_romfs st = external_romfs_for e)).
Proof.
  split; [|split; [reflexivity|]].
  - intros e. split; [apply external_romfs_for_prefix|].
    unfold external_romfs_for. split; intros Hprefix.
    + by rewrite decide_True.
    + rewrite decide_False by done. by repeat case_decide.
  - intros j st Hload. merge_frames Hload.
    apply load_general_romfs in Hgeneral0.
    assert (has_external_romfs st = has_external_romfs s1
            ∧ external_romfs st = external_romfs s1) as [-> ->].
    { subst st. cbn. rewrite Hexport, Hinstalls, Hui. by cbn. }
    destruct (member j "general" "externalRomFs") as [[| | |e| |]|];
      try done; cbn in Hgeneral0.
    + destruct (String_empty e) eqn:He.
      * destruct e; [|discriminate]. destruct Hgeneral0 as [-> ->]. cbn.
        split; [|by intros e' [= <-]].
        split; [discriminate|]. by intros (e & [= <-] & ?).
      * apply String_empty_false in He. destruct Hgeneral0 as [-> ->].
        split; [|by intros e' [= <-]]. split; [eauto|done].
    + destruct Hgeneral0 as [-> ->]. cbn. split; [|discriminate].
      split; [discriminate|]. by intros (e & ? & _).
Qed.

(** ** The color scheme *)

Lemma load_scheme_color_override (j : json) (key : string)
    (assign : Color → ColorScheme → ColorScheme) (s s' : Settings) :
  load_scheme_color j key assign s = Ok s' →
  match color_override j key with
  | Some clr => ∃ c, FromHex clr = Some c
                     ∧ s' = set_custom_scheme (assign c (custom_scheme s))
                              (set_has_custom_scheme true s)
  | None => s' = s
  end.
Proof.
  intros (clr & Hclr & Hs')%load_scheme_color_Ok. unfold color_override.
  apply member_value_string_Ok in Hclr as [-> | [-> ->]]; [|done].
  by destruct (String_empty clr).
Qed.

Lemma color_override_no_ui (j : json) (key : string) :
  count j "ui" = false → color_override j key = None.
Proof.
  unfold color_override, member, section. intros Hcount.
  destruct j as [| | | | |m]; try done. by rewrite (count_false _ _ Hcount).
Qed.

Lemma load_ui_scheme (j : json) (s s' : Settings) :
  load_ui j s = Ok s' →
  color_loaded j "background" (bg (custom_scheme s)) (bg (custom_scheme s'))
  ∧ color_loaded j "base" (base (custom_scheme s)) (base (custom_scheme s'))
  ∧ color_loaded j "baseFocus" (base_focus (custom_scheme s))
      (base_focus (custom_scheme s'))
  ∧ color_loaded j "text" (text (custom_scheme s)) (text (custom_scheme s'))
  ∧ has_custom_scheme s'
    = has_custom_scheme s
      || has_override j "background" || has_override j "base"
      || has_override j "baseFocus" || has_override j "text".
Proof.
  unfold load_ui, color_loaded, has_override.
  destruct (count j "ui") eqn:Hcount; cycle 1.
  { intros [= <-]. rewrite !color_override_no_ui by done.
    repeat split. by rewrite !orb_false_r. }
  intros Hload.
  bind_inv Hload as s1 H1. bind_inv Hload as s2 H2.
  bind_inv Hload as s3 H3. bind_inv Hload as s4 H4.
  bind_inv Hload as size Hsize. bind_inv Hload as sb_clr Hsb_clr.
  bind_inv Hload as s5 H5. bind_inv Hload as pb_clr Hpb_clr.
  assert (custom_scheme s' = custom_scheme s4
          ∧ has_custom_scheme s' = has_custom_scheme s4) as [-> ->].
  { assert (custom_scheme s5 = custom_scheme s4
            ∧ has_custom_scheme s5 = has_custom_scheme s4) as [<- <-].
    { destruct (String_empty sb_clr); cbn in H5.
      - by injection H5 as <-.
      - by apply assign_FromHex_Ok in H5 as (c & _ & ->). }
    destruct (String_empty pb_clr); cbn in Hload.
    - by injection Hload as <-.
    - by apply assign_FromHex_Ok in Hload as (c & _ & ->). }
  apply load_scheme_color_override in H1, H2, H3, H4.
  clear Hsize Hsb_clr H5 Hpb_clr Hload.
  destruct (color_override j "background") as [c1|],
           (color_override j "base") as [c2|],
           (color_override j "baseFocus") as [c3|],
           (color_override j "text") as [c4|].
  all: repeat match goal with
       | Hstep : ∃ c, _ ∧ _ |- _ => destruct Hstep as (? & ? & ->)
       | Hstep : _ = _ :> Settings |- _ => rewrite Hstep; clear Hstep
       end.
  all: cbn; repeat split; try done.
  all: by rewrite ?orb_true_r, ?orb_false_r.
Qed.

Lemma merge_document_scheme (random_scheme : ColorScheme) (j : json)
    (st : Settings) :
  merge_document random_scheme j = Ok st →
  color_loaded j "background" (bg random_scheme) (bg (custom_scheme st))
  ∧ color_loaded j "base" (base random_scheme) (base (custom_scheme st))
  ∧ color_loaded j "baseFocus" (base_focus random_scheme)
      (base_focus (custom_scheme st))
  ∧ color_loaded j "text" (text random_scheme) (text (custom_scheme st))
  ∧ has_custom_scheme st
    = has_override j "background" || has_override j "base"
      || has_override j "baseFocus" || has_override j "text".
Proof.
  intros Hload. merge_frames Hload. apply load_ui_scheme in Hui0.
  assert (custom_scheme st = custom_scheme s2
          ∧ has_custom_scheme st = has_custom_scheme s2) as [-> ->].
  { subst st. cbn. rewrite Hexport, Hinstalls. by cbn. }
  assert (custom_scheme s1 = random_scheme
          ∧ has_custom_scheme s1 = false) as [Hscheme Hflag].
  { rewrite Hgeneral. by cbn. }
  by rewrite Hscheme, Hflag in Hui0.
Qed.

(** C8.  When section [ui] of the document holds only a non-empty
    [background], the load ends with [has_custom_scheme] set, [bg] the color
    decoded from that text, and [base], [base_focus] and [text] those of the
    scheme generated for this load.  In general each of the four colors is
    the decoding of its own member when that is a non-empty text and the
    generated color otherwise, and [has_custom_scheme] is set exactly when
    one of the four members is. *)
Theorem partial_scheme_override (random_scheme : ColorScheme) (j : json)
    (st : Settings) :
  merge_document random_scheme j = Ok st →
  (∀ clr, section j "ui" = Some {[ "background" := JString clr ]} →
          clr ≠ EmptyString →
          has_custom_scheme st = true
          ∧ FromHex clr = Some (bg (custom_scheme st))
          ∧ base (custom_scheme st) = base random_scheme
          ∧ base_focus (custom_scheme st) = base_focus random_scheme
          ∧ text (custom_scheme st) = text random_scheme)
  ∧ color_loaded j "background" (bg random_scheme) (bg (custom_scheme st))
  ∧ color_loaded j "base" (base random_scheme) (base (custom_scheme st))
  ∧ color_loaded j "baseFocus" (base_focus random_scheme)
      (base_focus (custom_scheme st))
  ∧ color_loaded j "text" (text random_scheme) (text (custom_scheme st))
  ∧ has_custom_scheme st
    = has_override j "background" || has_override j "base"
      || has_override j "baseFocus" || has_override j "text".
Proof.
  intros Hscheme%merge_document_scheme. split; [|exact Hscheme].
  intros clr Hui Hclr. revert Hscheme.
  unfold color_loaded, has_override, color_override, member.
  rewrite Hui. cbn. rewrite lookup_singleton_eq.
  rewrite !lookup_singleton_ne by done.
  apply String_empty_false in Hclr as ->. cbn. tauto.
Qed.

(** ** The menu item size *)

Lemma get_unsigned_Ok (bits : Z) (own_type : bool) (v : json) (x : Z) :
  get_unsigned bits own_type v = Ok x →
  (∃ z, v = JInt z ∧ x = wrap bits z)
  ∨ (∃ b, v = JBool b ∧ own_type = false ∧ x = Z.b2z b).
Proof.
  destruct v as [|b|z| | |]; cbn; try discriminate.
  - destruct own_type; [discriminate|]. intros [= <-]. right. eauto.
  - intros [= <-]. left. eauto.
Qed.

Lemma load_ui_menu_item_size (j : json) (s s' : Settings) (z : Z) :
  load_ui j s = Ok s' → member j "ui" "menuItemSize" = Some (JInt z) →
  menu_item_size s' = wrap menu_item_size_bits z.
Proof.
  unfold load_ui. destruct (count j "ui") eqn:Hcount; cycle 1.
  { intros _. unfold member, section. destruct j as [| | | | |m]; try done.
    by rewrite (count_false _ _ Hcount). }
  intros Hload Hz.
  bind_inv Hload as s1 H1. bind_inv Hload as s2 H2.
  bind_inv Hload as s3 H3. bind_inv Hload as s4 H4.
  bind_inv Hload as size Hsize. bind_inv Hload as sb_clr Hsb_clr.
  bind_inv Hload as s5 H5. bind_inv Hload as pb_clr Hpb_clr.
  apply member_value_Ok in Hsize as (ui & Hui & Hsize).
  unfold member in Hz. rewrite Hui in Hz. cbn in Hz. rewrite Hz in Hsize.
  injection Hsize as <-.
  assert (menu_item_size s5 = wrap menu_item_size_bits z) as <-.
  { destruct (String_empty sb_clr); cbn in H5.
    - by injection H5 as <-.
    - by apply assign_FromHex_Ok in H5 as (c & _ & ->). }
  destruct (String_empty pb_clr); cbn in Hload.
  - by injection Hload as <-.
  - by apply assign_FromHex_Ok in Hload as (c & _ & ->).
Qed.

(** C10.  The load stores whatever integer [ui.menuItemSize] holds,
    converted to 32 bits, without any check: every integer loads, zero
    included.  [ComputeDefaultMenuItemCount] is [560 / menu_item_size] when
    [menu_item_size] is not zero and has no result for zero, which the
    document with [ui.menuItemSize = 0] makes the loaded value. *)
Theorem menu_item_size_unvalidated (random_scheme : ColorScheme) :
  (∀ j st z, merge_document random_scheme j = Ok st →
             member j "ui" "menuItemSize" = Some (JInt z) →
             menu_item_size st = wrap menu_item_size_bits z)
  ∧ (∀ z, ∃ st,
       merge_document random_scheme (Sample.menu_item_size_document z) = Ok st
       ∧ menu_item_size st = wrap menu_item_size_bits z)
  ∧ (∃ st,
       merge_document random_scheme (Sample.menu_item_size_document 0) = Ok st
       ∧ menu_item_size st = 0%Z
       ∧ Ui.ComputeDefaultMenuItemCount (menu_item_size st) = None)
  ∧ (∀ n, (0 ≤ n < 2 ^ menu_item_size_bits)%Z → n ≠ 0%Z →
          Ui.ComputeDefaultMenuItemCount n = Some (560 / n)%Z)
  ∧ Ui.ComputeDefaultMenuItemCount 0 = None.
Proof.
  split; [|split; [|split; [|split]]].
  - intros j st z Hload Hz. merge_frames Hload.
    apply (load_ui_menu_item_size _ _ _ z) in Hui0; [|done].
    rewrite <- Hui0. subst st. cbn. rewrite Hexport, Hinstalls. by cbn.
  - intros z. eexists. split; reflexivity.
  - eexists. split; [reflexivity|]. split; reflexivity.
  - intros n _ Hn. unfold Ui.ComputeDefaultMenuItemCount.
    by rewrite decide_False.
  - reflexivity.
Qed.

(** ** The decrypt buffer size *)

Lemma load_export_decrypt (j : json) (s s' : Settings) :
  load_export j s = Ok s' → count j "export" = true →
  ∃ installs,
    section j "installs" = Some installs
    ∧ match installs !! "decryptBufferMaxSize" with
      | Some v => ∃ z, v = JInt z
                       ∧ decrypt_buffer_max_size s' = wrap buffer_size_bits z
      | None => decrypt_buffer_max_size s' = decrypt_buffer_max_size s
      end.
Proof.
  unfold load_export. intros Hload Hcount. rewrite Hcount in Hload.
  bind_inv Hload as size Hsize. injection Hload as <-.
  apply member_value_Ok in Hsize as (installs & Hinstalls & Hsize).
  exists installs. split; [done|].
  destruct (installs !! "decryptBufferMaxSize") as [v|]; [|by subst].
  apply get_unsigned_Ok in Hsize as [(z & -> & ->)|(b & _ & [=] & _)].
  by exists z.
Qed.

Lemma load_export_no_installs (m : gmap string json) (s : Settings) :
  is_Some (m !! "export") → m !! "installs" = None →
  load_export (JObject m) s = Fail (missing_key "installs").
Proof.
  intros Hexport Hinstalls. unfold load_export, member_value, count, at_key.
  rewrite (bool_decide_eq_true_2 _ Hexport), Hinstalls. reflexivity.
Qed.

(** ** What [Save] writes *)

Lemma Save_document_sections (this : Settings) :
  Save_document this
  = save_bookmarks (bookmarks this) 0 (JObject (saved_sections this)).
Proof.
  unfold Save_document, saved_sections, saved_general, saved_ui.
  destruct (has_custom_lang this), (has_external_romfs this),
    (has_custom_scheme this), (has_scrollbar_color this),
    (has_progressbar_color this); reflexivity.
Qed.

(** One assignment [json["web"]["bookmarks"][i][key] = v] once section
    [web] holds the array [arr]. *)
Lemma set_path4_web (m : gmap string json) (arr : list json) (i : nat)
    (key : string) (v : json) :
  set_path4 (JObject (<[ "web" := saved_web arr ]> m)) "web" "bookmarks" i key v
  = (item ← set_key (default JNull (arr !! i)) key v;
     Ok (JObject (<[ "web" :=
           saved_web (<[ i := item ]> (arr ++ replicate (S i - length arr) JNull)) ]>
           m))).
Proof.
  unfold set_path4, saved_web. cbn [ref_key mbind result_bind].
  rewrite lookup_insert_eq. cbn [from_option id ref_key mbind result_bind].
  rewrite lookup_singleton_eq. cbn [from_option id ref_index mbind result_bind].
  destruct (set_key _ key v) as [item|e]; [|reflexivity].
  cbn [set_index set_key mbind result_bind].
  by rewrite insert_singleton_eq, insert_insert_eq.
Qed.

(** One round of the loop once section [web] exists: entry [length done]
    is appended to the array. *)
Lemma save_bookmark_next (m : gmap string json) (done : list json)
    (bmk : WebBookmark) :
  (json ← set_path4 (JObject (<[ "web" := saved_web done ]> m))
            "web" "bookmarks" (length done) "name" (JString (name bmk));
   set_path4 json "web" "bookmarks" (length done) "url" (JString (url bmk)))
  = Ok (JObject (<[ "web" := saved_web (done ++ [bookmark_json bmk]) ]> m)).
Proof.
  rewrite set_path4_web. rewrite lookup_ge_None_2 by done.
  cbn [from_option set_key mbind result_bind].
  replace (S (length done) - length done) with 1 by lia. cbn [replicate].
  rewrite insert_app_r_alt, Nat.sub_diag by done. cbn [insert list_insert].
  rewrite set_path4_web. rewrite lookup_app_r, Nat.sub_diag by done.
  cbn [lookup list_lookup from_option id set_key mbind result_bind].
  rewrite length_app. cbn [length].
  replace (S (length done) - (length done + 1)) with 0 by lia.
  cbn [replicate]. rewrite app_nil_r.
  by rewrite insert_app_r_alt, Nat.sub_diag by done.
Qed.

Lemma save_bookmarks_next (rest : list WebBookmark) (m : gmap string json)
    (done : list json) :
  save_bookmarks rest (length done) (JObject (<[ "web" := saved_web done ]> m))
  = Ok (JObject (<[ "web" := saved_web (done ++ (bookmark_json <$> rest)) ]> m)).
Proof.
  revert done. induction rest as [|bmk rest IH]; intros done.
  - cbn. by rewrite app_nil_r.
  - cbn [save_bookmarks]. 
    pose proof (save_bookmark_next m done bmk) as Hstep.
    destruct (set_path4 _ "web" "bookmarks" (length done) "name" _) as [j1|];
      [|discriminate].
    cbn in Hstep. cbn [mbind result_bind]. rewrite Hstep. cbn [mbind result_bind].
    replace (S (length done)) with (length (done ++ [bookmark_json bmk]))
      by (rewrite length_app; cbn; lia).
    rewrite IH. by rewrite <- app_assoc.
Qed.

Lemma save_bookmarks_first (bmks : list WebBookmark) (m : gmap string json) :
  m !! "web" = None →
  save_bookmarks bmks 0 (JObject m)
  = Ok (JObject (match bmks with
                 | [] => m
                 | _ :: _ => <[ "web" := saved_web (bookmark_json <$> bmks) ]> m
                 end)).
Proof.
  intros Hweb. destruct bmks as [|bmk rest]; [reflexivity|].
  cbn [save_bookmarks].
  assert (set_path4 (JObject m) "web" "bookmarks" 0 "name" (JString (name bmk))
          = Ok (JObject (<[ "web" := saved_web [JObject {[ "name" := JString (name bmk) ]}] ]> m)))
    as ->.
  { unfold set_path4. cbn [ref_key mbind result_bind]. by rewrite Hweb. }
  cbn [mbind result_bind].
  assert (set_path4 (JObject (<[ "web" := saved_web [JObject {[ "name" := JString (name bmk) ]}] ]> m))
            "web" "bookmarks" 0 "url" (JString (url bmk))
          = Ok (JObject (<[ "web" := saved_web [bookmark_json bmk] ]> m))) as ->.
  { by rewrite set_path4_web. }
  cbn [mbind result_bind].
  apply (save_bookmarks_next rest m [bookmark_json bmk]).
Qed.

Lemma Save_document_eq (this : Settings) :
  Save_document this = Ok (saved_document this).
Proof.
  rewrite Save_document_sections. by apply save_bookmarks_first.
Qed.

Lemma section_saved_document (this : Settings) (sect : string)
    (sub : gmap string json) :
  sect ≠ "web" → saved_sections this !! sect = Some (JObject sub) →
  section (saved_document this) sect = Some sub.
Proof.
  intros Hsect Hsub. unfold saved_document, section.
  destruct (bookmarks this); [|rewrite lookup_insert_ne by done];
    by rewrite Hsub.
Qed.

Lemma count_section (j : json) (sect : string) (sub : gmap string json) :
  section j sect = Some sub → count j sect = true.
Proof.
  unfold section, count. destruct j as [| | | | |m]; try discriminate.
  destruct (m !! sect); [|discriminate]. intros _. by apply bool_decide_eq_true_2.
Qed.

Lemma section_general_saved (this : Settings) :
  section (saved_document this) "general" = Some (saved_general this).
Proof. by apply section_saved_document. Qed.

Lemma section_ui_saved (this : Settings) :
  section (saved_document this) "ui" = Some (saved_ui this).
Proof. by apply section_saved_document. Qed.

Lemma section_installs_saved (this : Settings) :
  section (saved_document this) "installs" = Some (saved_installs this).
Proof. by apply section_saved_document. Qed.

Lemma section_export_saved (this : Settings) :
  section (saved_document this) "export" = Some (saved_export this).
Proof. by apply section_saved_document. Qed.

(** ** The decrypt buffer size, both directions *)

(** What the load does with the decrypt buffer size (the part of C2 the
    code keeps).  A load that ends with a [Settings] value, of a document
    with an [export] section, has read [decrypt_buffer_max_size] from
    section [installs], which then has to be there: the value is that of
    [installs.decryptBufferMaxSize] when that member exists and the 16 MiB
    default when it does not, whatever section [export] holds.  [Save]
    writes the value as [export.decryptBufferMaxSize] and writes no such
    member in [installs]. *)
Theorem decrypt_buffer_read_from_installs (random_scheme : ColorScheme) :
  (∀ j st, merge_document random_scheme j = Ok st →
     count j "export" = true →
     ∃ installs,
       section j "installs" = Some installs
       ∧ match installs !! "decryptBufferMaxSize" with
         | Some v => ∃ z, v = JInt z
                          ∧ decrypt_buffer_max_size st = wrap buffer_size_bits z
         | None => decrypt_buffer_max_size st = (16 * 1024 * 1024)%Z
         end)
  ∧ (∀ m e1 e2 st1 st2,
       merge_document random_scheme (JObject (<[ "export" := e1 ]> m)) = Ok st1 →
       merge_document random_scheme (JObject (<[ "export" := e2 ]> m)) = Ok st2 →
       decrypt_buffer_max_size st1 = decrypt_buffer_max_size st2)
  ∧ (∀ this, ∃ doc,
       Save_document this = Ok doc
       ∧ member doc "export" "decryptBufferMaxSize"
         = Some (JInt (decrypt_buffer_max_size this))
       ∧ ∃ installs, section doc "installs" = Some installs
                     ∧ installs !! "decryptBufferMaxSize" = None).
Proof.
  assert (∀ j st, merge_document random_scheme j = Ok st →
     count j "export" = true →
     ∃ installs,
       section j "installs" = Some installs
       ∧ match installs !! "decryptBufferMaxSize" with
         | Some v => ∃ z, v = JInt z
                          ∧ decrypt_buffer_max_size st = wrap buffer_size_bits z
         | None => decrypt_buffer_max_size st = (16 * 1024 * 1024)%Z
         end) as Hread.
  { intros j st Hload Hcount. merge_frames Hload.
    apply load_export_decrypt in Hexport0 as (installs & Hsection & Hvalue);
      [|done].
    exists installs. split; [done|].
    assert (decrypt_buffer_max_size st = decrypt_buffer_max_size s4) as ->.
    { by subst st. }
    assert (decrypt_buffer_max_size s3 = (16 * 1024 * 1024)%Z) as Hdefault.
    { rewrite Hinstalls. cbn. rewrite Hui. cbn. rewrite Hgeneral. by cbn. }
    by rewrite Hdefault in Hvalue. }
  split; [exact Hread|split].
  - intros m e1 e2 st1 st2 Hload1 Hload2.
    apply Hread in Hload1 as (i1 & Hi1 & Hv1);
      [|by cbn; rewrite lookup_insert_eq].
    apply Hread in Hload2 as (i2 & Hi2 & Hv2);
      [|by cbn; rewrite lookup_insert_eq].
    revert Hi1 Hi2. unfold section. rewrite !lookup_insert_ne by done.
    intros -> [= ->].
    destruct (i2 !! "decryptBufferMaxSize") as [v|]; [|congruence].
    destruct Hv1 as (z1 & -> & ->), Hv2 as (z2 & [= <-] & ->). done.
  - intros this. exists (saved_document this).
    split; [apply Save_document_eq|]. split.
    + unfold member. by rewrite section_export_saved.
    + exists (saved_installs this). by rewrite section_installs_saved.
Qed.

(** ** Loading what [Save] wrote *)

(** Reads the member [key] of a section whose content [Hsection] gives. *)
Ltac read_member Hsection key :=
  rewrite (member_value_section _ _ _ key _ _ Hsection); simpl_map;
  cbn [get_string get_bool get_unsigned mbind result_bind].

Lemma prefix_not_empty (str : string) :
  substring 0 6 str = "sdmc:/" → String_empty str = false.
Proof. by destruct str. Qed.

Lemma external_romfs_for_fixed (str : string) :
  substring 0 6 str = "sdmc:/" → external_romfs_for str = str.
Proof. intros Hprefix. unfold external_romfs_for. by rewrite decide_True. Qed.

Lemma wrap_in_range (bits z : Z) : (0 ≤ z < 2 ^ bits)%Z → wrap bits z = z.
Proof. intros Hz. unfold wrap. by apply Z.mod_small. Qed.

Lemma load_general_saved (this s : Settings) :
  has_custom_lang this = true → has_external_romfs this = true →
  GetLanguageCode (custom_lang this) ≠ EmptyString →
  GetLanguageByCode (GetLanguageCode (custom_lang this)) = custom_lang this →
  substring 0 6 (external_romfs this) = "sdmc:/" →
  load_general (saved_document this) s
  = Ok (set_ignore_hidden_files (ignore_hidden_files this)
          (set_use_12h_time (use_12h_time this)
             (set_external_romfs (external_romfs this)
                (set_has_external_romfs true
                   (set_custom_lang (custom_lang this)
                      (set_has_custom_lang true s)))))).
Proof.
  intros Hlang Hromfs Hcode%String_empty_false Hcodec Hprefix.
  pose proof (section_general_saved this) as Hsection.
  unfold load_general, saved_general in *.
  rewrite (count_section _ _ _ Hsection). rewrite Hlang, Hromfs in Hsection.
  read_member Hsection "customLanguage". rewrite Hcode, Hcodec. cbn [negb].
  read_member Hsection "externalRomFs".
  rewrite (prefix_not_empty _ Hprefix), (external_romfs_for_fixed _ Hprefix).
  cbn [negb]. read_member Hsection "use12hTime".
  read_member Hsection "ignoreHiddenFiles". reflexivity.
Qed.

Lemma assign_FromHex_ColorToHex (clr : Color)
    (assign : Color → Settings → Settings) (s : Settings) :
  assign_FromHex (ColorToHex clr) assign s = Ok (assign clr s).
Proof. unfold assign_FromHex. by rewrite FromHex_ColorToHex. Qed.

Lemma load_ui_saved (this s : Settings) :
  has_custom_scheme this = true → has_scrollbar_color this = true →
  has_progressbar_color this = true →
  (0 ≤ menu_item_size this < 2 ^ menu_item_size_bits)%Z →
  load_ui (saved_document this) s
  = Ok (set_progressbar_color (progressbar_color this)
          (set_has_progressbar_color true
             (set_scrollbar_color (scrollbar_color this)
                (set_has_scrollbar_color true
                   (set_menu_item_size (menu_item_size this)
                      (set_custom_scheme (custom_scheme this)
                         (set_has_custom_scheme true s))))))).
Proof.
  intros Hscheme Hsb Hpb Hsize.
  pose proof (section_ui_saved this) as Hsection.
  unfold load_ui, load_scheme_color, saved_ui, saved_scheme in *.
  rewrite (count_section _ _ _ Hsection). rewrite Hscheme, Hsb, Hpb in Hsection.
  read_member Hsection "background".
  rewrite ColorToHex_not_empty, assign_FromHex_ColorToHex.
  cbn [negb mbind result_bind].
  read_member Hsection "base".
  rewrite ColorToHex_not_empty, assign_FromHex_ColorToHex.
  cbn [negb mbind result_bind].
  read_member Hsection "baseFocus".
  rewrite ColorToHex_not_empty, assign_FromHex_ColorToHex.
  cbn [negb mbind result_bind].
  read_member Hsection "text".
  rewrite ColorToHex_not_empty, assign_FromHex_ColorToHex.
  cbn [negb mbind result_bind].
  read_member Hsection "menuItemSize". rewrite (wrap_in_range _ _ Hsize).
  read_member Hsection "scrollBar".
  rewrite ColorToHex_not_empty, assign_FromHex_ColorToHex.
  cbn [negb mbind result_bind].
  read_member Hsection "progressBar".
  rewrite ColorToHex_not_empty, assign_FromHex_ColorToHex.
  destruct s, (custom_scheme this); reflexivity.
Qed.

Lemma load_installs_saved (this s : Settings) :
  (0 ≤ copy_buffer_max_size this < 2 ^ buffer_size_bits)%Z →
  load_installs (saved_document this) s
  = Ok (set_copy_buffer_max_size (copy_buffer_max_size this)
          (set_show_deletion_prompt_after_install
             (show_deletion_prompt_after_install this)
             (set_ignore_required_fw_ver (ignore_required_fw_ver this) s))).
Proof.
  intros Hsize. pose proof (section_installs_saved this) as Hsection.
  unfold load_installs, saved_installs in *.
  rewrite (count_section _ _ _ Hsection).
  read_member Hsection "ignoreRequiredFwVersion".
  read_member Hsection "showDeletionPromptAfterInstall".
  read_member Hsection "copyBufferMaxSize".
  by rewrite (wrap_in_range _ _ Hsize).
Qed.

(** The member [Save] put in section [export] is looked for in section
    [installs], where [Save] put none: the value stays what it was. *)
Lemma load_export_saved (this s : Settings) :
  load_export (saved_document this) s
  = Ok (set_decrypt_buffer_max_size (decrypt_buffer_max_size s) s).
Proof.
  pose proof (section_installs_saved this) as Hsection.
  unfold load_export, saved_installs in *.
  rewrite (count_section _ _ _ (section_export_saved this)).
  by read_member Hsection "decryptBufferMaxSize".
Qed.

Lemma kept_bookmark_json (bmk : WebBookmark) :
  nonempty_bookmark bmk → kept_bookmark (bookmark_json bmk) = Some bmk.
Proof.
  destruct bmk as [n u]. intros [Hn%String_empty_false Hu%String_empty_false].
  unfold kept_bookmark, bookmark_json. simpl_map. cbn in *. by rewrite Hn, Hu.
Qed.

Lemma omap_kept_bookmark_json (bmks : list WebBookmark) :
  Forall nonempty_bookmark bmks →
  omap kept_bookmark (bookmark_json <$> bmks) = bmks.
Proof.
  induction 1 as [|bmk bmks Hbmk _ IH]; [done|].
  cbn [fmap list_fmap omap list_omap].
  rewrite (kept_bookmark_json _ Hbmk). f_equal. exact IH.
Qed.

Lemma bookmark_json_entry (bmk : WebBookmark) : bookmark_entry (bookmark_json bmk).
Proof.
  eexists. split; [reflexivity|]. split; right; eexists; by simpl_map.
Qed.

Lemma load_web_saved (this s : Settings) :
  Forall nonempty_bookmark (bookmarks this) →
  load_web (saved_document this) s
  = Ok (set_bookmarks (bookmarks s ++ bookmarks this) s).
Proof.
  intros Hbmks. destruct (bookmarks this) as [|bmk rest] eqn:Hlist.
  - unfold load_web, saved_document. rewrite Hlist.
    assert (count (JObject (saved_sections this)) "web" = false) as ->
      by reflexivity.
    rewrite app_nil_r. by destruct s.
  - rewrite (load_web_total _ _ (bookmark_json <$> bookmarks this)).
    + rewrite omap_kept_bookmark_json; by rewrite Hlist.
    + unfold member, section, saved_document, saved_web. rewrite Hlist.
      by simpl_map.
    + apply Forall_fmap, Forall_true. intros b. apply bookmark_json_entry.
Qed.

Lemma merge_saved_document (random_scheme : ColorScheme) (this : Settings) :
  has_custom_lang this = true → has_external_romfs this = true →
  has_custom_scheme this = true → has_scrollbar_color this = true →
  has_progressbar_color this = true →
  Settings_in_range this →
  GetLanguageCode (custom_lang this) ≠ EmptyString →
  GetLanguageByCode (GetLanguageCode (custom_lang this)) = custom_lang this →
  substring 0 6 (external_romfs this) = "sdmc:/" →
  Forall nonempty_bookmark (bookmarks this) →
  merge_document random_scheme (saved_document this)
  = Ok (set_decrypt_buffer_max_size (16 * 1024 * 1024) this).
Proof.
  intros Hlang Hromfs Hscheme Hsb Hpb (Hmenu & Hcopy & _) Hcode Hcodec Hprefix
    Hbmks.
  unfold merge_document.
  rewrite load_general_saved by done. cbn [mbind result_bind].
  rewrite load_ui_saved by done. cbn [mbind result_bind].
  rewrite load_installs_saved by done. cbn [mbind result_bind].
  rewrite load_export_saved. cbn [mbind result_bind].
  rewrite load_web_saved by done.
  destruct this; cbn in *; subst; reflexivity.
Qed.

(** C1 (as the code has it).  Take a [Settings] value with the five
    [has_*] flags set, its integers within their types, an
    [external_romfs] that begins with [sdmc:/], bookmarks whose name and
    url are not empty, and a language whose code is not empty and maps back
    to it.  [Save] followed by a load gives a value equal to it in every
    member other than [decrypt_buffer_max_size]: colors, integers,
    booleans, texts, and the bookmarks in their order. *)
Theorem Save_ProcessSettings_roundtrip (random_scheme : ColorScheme)
    (sd_exp : Explorer) (this : Settings) :
  has_custom_lang this = true → has_external_romfs this = true →
  has_custom_scheme this = true → has_scrollbar_color this = true →
  has_progressbar_color this = true →
  Settings_in_range this →
  GetLanguageCode (custom_lang this) ≠ EmptyString →
  GetLanguageByCode (GetLanguageCode (custom_lang this)) = custom_lang this →
  substring 0 6 (external_romfs this) = "sdmc:/" →
  Forall nonempty_bookmark (bookmarks this) →
  ∃ sd_exp' loaded,
    Save this sd_exp = Ok sd_exp'
    ∧ ProcessSettings random_scheme sd_exp' = Ok loaded
    ∧ loaded = set_decrypt_buffer_max_size (decrypt_buffer_max_size loaded) this.
Proof.
  intros Hlang Hromfs Hscheme Hsb Hpb Hrange Hcode Hcodec Hprefix Hbmks.
  unfold Save, ProcessSettings. rewrite Save_document_eq.
  cbn [mbind result_bind]. do 2 eexists. split; [reflexivity|].
  rewrite ReadJSON_WriteJSON. cbn [mbind result_bind].
  rewrite merge_saved_document by done. split; [reflexivity|].
  by destruct this.
Qed.

(** ** The language *)

Lemma GetLanguage_loaded (this : Settings) (p : Process) :
  g_DefaultLanguageLoaded p = true →
  GetLanguage this p
  = Ok (if has_custom_lang this then custom_lang this else g_DefaultLanguage p,
        p).
Proof.
  intros Hloaded. unfold GetLanguage, EnsureDefaultLanguage.
  destruct (has_custom_lang this); [done|]. rewrite Hloaded. cbn.
  by rewrite Hloaded.
Qed.

Lemma GetLanguage_first (this : Settings) (p : Process) (code : Z)
    (sys_lang : SetLanguage) :
  has_custom_lang this = false → g_DefaultLanguageLoaded p = false →
  host_language_code p = Some code → setMakeLanguage code = Some sys_lang →
  GetLanguage this p
  = Ok (GetLanguageBySystemLanguage sys_lang,
        MkProcess (GetLanguageBySystemLanguage sys_lang) true (Some code)
          (S (host_queries p))).
Proof.
  intros Hcustom Hloaded Hcode Hmake. unfold GetLanguage, EnsureDefaultLanguage.
  by rewrite Hcustom, Hloaded, Hcode, Hmake.
Qed.

Lemma GetLanguage_Ok (this : Settings) (p p' : Process) (lang : Language) :
  GetLanguage this p = Ok (lang, p') →
  (has_custom_lang this = true ∧ lang = custom_lang this ∧ p' = p)
  ∨ (has_custom_lang this = false ∧ lang = g_DefaultLanguage p'
     ∧ g_DefaultLanguageLoaded p' = true
     ∧ host_language_code p' = host_language_code p
     ∧ if g_DefaultLanguageLoaded p then p' = p
       else host_queries p' = S (host_queries p)).
Proof.
  unfold GetLanguage, EnsureDefaultLanguage.
  destruct (has_custom_lang this); [intros [= <- <-]; by left|].
  intros Hcall. right. split; [done|].
  destruct (g_DefaultLanguageLoaded p) eqn:Hloaded; cbn in Hcall.
  - rewrite Hloaded in Hcall. by injection Hcall as <- <-.
  - destruct (host_language_code p) as [code|]; [|discriminate].
    destruct (setMakeLanguage code); [|discriminate].
    cbn in Hcall. by injection Hcall as <- <-.
Qed.

Lemma GetLanguage_calls_cons (this : Settings) (rest : list Settings)
    (p p' : Process) (langs : list Language) :
  GetLanguage_calls (this :: rest) p = Ok (langs, p') →
  ∃ lang p1 langs',
    GetLanguage this p = Ok (lang, p1)
    ∧ GetLanguage_calls rest p1 = Ok (langs', p')
    ∧ langs = lang :: langs'.
Proof.
  cbn [GetLanguage_calls]. intros Hrun.
  bind_inv Hrun as r1 Hcall. destruct r1 as [lang p1].
  bind_inv Hrun as r2 Hrest. destruct r2 as [langs' p2].
  injection Hrun as <- <-. by exists lang, p1, langs'.
Qed.

Lemma GetLanguage_calls_run (calls : list Settings) (p p' : Process)
    (langs : list Language) :
  GetLanguage_calls calls p = Ok (langs, p') →
  langs = language_for (g_DefaultLanguage p') <$> calls
  ∧ (g_DefaultLanguageLoaded p = true → p' = p)
  ∧ (host_queries p ≤ host_queries p')%nat
  ∧ (host_queries p'
     ≤ host_queries p + (if g_DefaultLanguageLoaded p then 0 else 1))%nat.
Proof.
  revert p langs. induction calls as [|this rest IH]; intros p langs.
  - intros [= <- <-]. repeat split; [done|lia..].
  - intros (lang & p1 & langs' & Hcall & Hrest & ->)%GetLanguage_calls_cons.
    apply IH in Hrest as (-> & Hsame & Hge & Hle). rewrite fmap_cons.
    apply GetLanguage_Ok in Hcall
      as [(Hcustom & -> & ->)|(Hcustom & -> & Hloaded1 & _ & Hstep)].
    + assert (language_for (g_DefaultLanguage p') this = custom_lang this)
        as -> by (unfold language_for; by rewrite Hcustom).
      by repeat split.
    + specialize (Hsame Hloaded1) as ->. rewrite Hloaded1 in Hle.
      assert (language_for (g_DefaultLanguage p1) this = g_DefaultLanguage p1)
        as -> by (unfold language_for; by rewrite Hcustom).
      destruct (g_DefaultLanguageLoaded p).
      * subst p1. repeat split; [done|lia..].
      * repeat split; [done|lia..].
Qed.

Lemma GetLanguage_calls_total (calls : list Settings) (p : Process)
    (code : Z) (sys_lang : SetLanguage) :
  host_language_code p = Some code → setMakeLanguage code = Some sys_lang →
  is_Ok (GetLanguage_calls calls p).
Proof.
  intros Hcode Hmake. revert p Hcode.
  induction calls as [|this rest IH]; intros p Hcode; [apply is_Ok_Ok|].
  cbn [GetLanguage_calls].
  assert (∃ lang p1, GetLanguage this p = Ok (lang, p1)
                     ∧ host_language_code p1 = Some code)
    as (lang & p1 & -> & Hcode1).
  { destruct (has_custom_lang this) eqn:Hcustom.
    - unfold GetLanguage. rewrite Hcustom. eauto.
    - destruct (g_DefaultLanguageLoaded p) eqn:Hloaded.
      + rewrite GetLanguage_loaded by done. eauto.
      + erewrite GetLanguage_first by done. eauto. }
  cbn [mbind result_bind]. destruct (IH p1 Hcode1) as [[langs p2] ->].
  apply is_Ok_Ok.
Qed.

(** C7.  With [has_custom_lang] set, [GetLanguage] returns [custom_lang]
    and leaves the process as it is: the host is not asked.  Otherwise the
    first call asks the host once, converts the answer and stores it; a
    call that finds the stored language returns it and changes nothing.
    Over any run of calls in a process the host is asked at most once, and
    every call without a custom language returns the stored language. *)
Theorem GetLanguage_cached :
  (∀ this p, has_custom_lang this = true →
             GetLanguage this p = Ok (custom_lang this, p))
  ∧ (∀ this p, has_custom_lang this = false →
               g_DefaultLanguageLoaded p = true →
               GetLanguage this p = Ok (g_DefaultLanguage p, p))
  ∧ (∀ this p code sys_lang,
       has_custom_lang this = false → g_DefaultLanguageLoaded p = false →
       host_language_code p = Some code →
       setMakeLanguage code = Some sys_lang →
       GetLanguage this p
       = Ok (GetLanguageBySystemLanguage sys_lang,
             MkProcess (GetLanguageBySystemLanguage sys_lang) true (Some code)
               (S (host_queries p))))
  ∧ (∀ calls code langs p',
       GetLanguage_calls calls (Process_start code) = Ok (langs, p') →
       (host_queries p' ≤ 1)%nat
       ∧ langs = language_for (g_DefaultLanguage p') <$> calls)
  ∧ (∀ calls code sys_lang,
       setMakeLanguage code = Some sys_lang →
       is_Ok (GetLanguage_calls calls (Process_start (Some code)))).
Proof.
  split; [|split; [|split; [|split]]].
  - intros this p Hcustom. unfold GetLanguage. by rewrite Hcustom.
  - intros this p Hcustom Hloaded. rewrite GetLanguage_loaded by done.
    by rewrite Hcustom.
  - intros this p code sys_lang. apply GetLanguage_first.
  - intros calls code langs p' (-> & _ & _ & Hle)%GetLanguage_calls_run.
    split; [exact Hle|reflexivity].
  - intros calls code sys_lang Hmake.
    by apply (GetLanguage_calls_total _ _ code sys_lang).
Qed.

End Properties.

(** * Further properties of the code *)

Section Further.
Context `{!Declarations}.

(** ** [ColorToHex] *)

Lemma fmt_02X_digits (x : byte) :
  ∃ hi lo, fmt_02X x = String hi (String lo EmptyString)
           ∧ upper_hex_digit hi = true ∧ upper_hex_digit lo = true.
Proof. destruct x; do 2 eexists; repeat split; reflexivity. Qed.

(** X1.  The text [ColorToHex] returns has nine characters: a [#] and
    eight digits out of [0-9A-F]; it fits the 32-byte buffer with its
    terminator. *)
Theorem ColorToHex_format (clr : Color) :
  String.length (ColorToHex clr) = 9
  ∧ (String.length (ColorToHex clr) < 32)%nat
  ∧ ∃ digits, ColorToHex clr = String "#" digits
              ∧ Forall (λ c, upper_hex_digit c = true)
                  (list_ascii_of_string digits).
Proof.
  destruct clr as [cr cg cb ca]. unfold ColorToHex; cbn [r g b a].
  destruct (fmt_02X_digits cr) as (r1 & r2 & -> & Hr1 & Hr2).
  destruct (fmt_02X_digits cg) as (g1 & g2 & -> & Hg1 & Hg2).
  destruct (fmt_02X_digits cb) as (b1 & b2 & -> & Hb1 & Hb2).
  destruct (fmt_02X_digits ca) as (a1 & a2 & -> & Ha1 & Ha2).
  cbv [String.append]. split; [reflexivity|]. split; [cbn; lia|].
  eexists. split; [reflexivity|]. cbn [list_ascii_of_string].
  repeat constructor; assumption.
Qed.

(** X2.  [ColorToHex] tells colors apart: two colors with the same text
    are the same color. *)
Theorem ColorToHex_injective (c1 c2 : Color) :
  ColorToHex c1 = ColorToHex c2 → c1 = c2.
Proof.
  intros Htext. pose proof (FromHex_ColorToHex c1) as H1.
  rewrite Htext, FromHex_ColorToHex in H1. congruence.
Qed.

(** ** The document [Save] writes *)

(** X3.  [Save] never throws: building the document succeeds for every
    [Settings] value, and the document is an object with the sections
    general, ui, installs and export, and with a section web exactly when
    there is a bookmark. *)
Theorem Save_never_throws (this : Settings) (sd_exp : Explorer) :
  is_Ok (Save this sd_exp)
  ∧ ∃ m, Save_document this = Ok (JObject m)
         ∧ dom m = {[ "general"; "ui"; "installs"; "export" ]}
                   ∪ (match bookmarks this with
                      | [] => ∅
                      | _ :: _ => {[ "web" ]}
                      end : gset string).
Proof.
  unfold Save. rewrite Save_document_eq. split; [apply is_Ok_Ok|].
  eexists. split; [reflexivity|]. unfold saved_sections.
  destruct (bookmarks this); rewrite !dom_insert_L, dom_singleton_L;
    set_solver.
Qed.

(** X4.  An optional member is in the saved document exactly when its
    flag is set: [customLanguage], [externalRomFs], [scrollBar],
    [progressBar], and the four scheme colors together under
    [has_custom_scheme]; when written it holds the current value, colors as
    their [ColorToHex] text. *)
Theorem Save_optional_members (this : Settings) :
  ∃ doc,
    Save_document this = Ok doc
    ∧ member doc "general" "customLanguage"
      = (if has_custom_lang this
         then Some (JString (GetLanguageCode (custom_lang this))) else None)
    ∧ member doc "general" "externalRomFs"
      = (if has_external_romfs this
         then Some (JString (external_romfs this)) else None)
    ∧ member doc "ui" "background"
      = (if has_custom_scheme this
         then Some (JString (ColorToHex (bg (custom_scheme this)))) else None)
    ∧ member doc "ui" "base"
      = (if has_custom_scheme this
         then Some (JString (ColorToHex (base (custom_scheme this)))) else None)
    ∧ member doc "ui" "baseFocus"
      = (if has_custom_scheme this
         then Some (JString (ColorToHex (base_focus (custom_scheme this))))
         else None)
    ∧ member doc "ui" "text"
      = (if has_custom_scheme this
         then Some (JString (ColorToHex (text (custom_scheme this)))) else None)
    ∧ member doc "ui" "scrollBar"
      = (if has_scrollbar_color this
         then Some (JString (ColorToHex (scrollbar_color this))) else None)
    ∧ member doc "ui" "progressBar"
      = (if has_progressbar_color this
         then Some (JString (ColorToHex (progressbar_color this))) else None).
Proof.
  exists (saved_document this). split; [apply Save_document_eq|].
  unfold member.
  rewrite section_general_saved, section_ui_saved.
  unfold saved_general, saved_ui, saved_scheme. cbn [mbind option_bind].
  destruct (has_custom_lang this), (has_external_romfs this),
    (has_custom_scheme this), (has_scrollbar_color this),
    (has_progressbar_color this); repeat split; reflexivity.
Qed.

(** X5.  The members without a flag are always written with the current
    value, and the bookmarks are written as they are, one array entry per
    bookmark in list order, empty names and urls included. *)
Theorem Save_plain_members (this : Settings) :
  ∃ doc,
    Save_document this = Ok doc
    ∧ member doc "general" "use12hTime" = Some (JBool (use_12h_time this))
    ∧ member doc "general" "ignoreHiddenFiles"
      = Some (JBool (ignore_hidden_files this))
    ∧ member doc "ui" "menuItemSize" = Some (JInt (menu_item_size this))
    ∧ member doc "installs" "ignoreRequiredFwVersion"
      = Some (JBool (ignore_required_fw_ver this))
    ∧ member doc "installs" "showDeletionPromptAfterInstall"
      = Some (JBool (show_deletion_prompt_after_install this))
    ∧ member doc "installs" "copyBufferMaxSize"
      = Some (JInt (copy_buffer_max_size this))
    ∧ member doc "web" "bookmarks"
      = match bookmarks this with
        | [] => None
        | _ :: _ =>
            Some (JArray ((λ bmk, JObject (<[ "url" := JString (url bmk) ]>
                                             {[ "name" := JString (name bmk) ]}))
                          <$> bookmarks this))
        end.
Proof.
  exists (saved_document this). split; [apply Save_document_eq|].
  unfold member.
  rewrite section_general_saved, section_ui_saved, section_installs_saved.
  unfold saved_general, saved_ui, saved_installs. cbn [mbind option_bind].
  split; [|split; [|split; [|split; [|split; [|split]]]]].
  1-3: destruct (has_custom_lang this), (has_external_romfs this),
         (has_custom_scheme this), (has_scrollbar_color this),
         (has_progressbar_color this); reflexivity.
  1-3: reflexivity.
  unfold saved_document, section. destruct (bookmarks this); [reflexivity|].
  by rewrite lookup_insert_eq.
Qed.

(** ** What a load reads *)

Lemma merge_document_congr (random_scheme : ColorScheme) (j1 j2 : json) :
  (∀ s, load_general j1 s = load_general j2 s) →
  (∀ s, load_ui j1 s = load_ui j2 s) →
  (∀ s, load_installs j1 s = load_installs j2 s) →
  (∀ s, load_export j1 s = load_export j2 s) →
  (∀ s, load_web j1 s = load_web j2 s) →
  merge_document random_scheme j1 = merge_document random_scheme j2.
Proof.
  intros Hgeneral Hui Hinstalls Hexport Hweb. unfold merge_document.
  rewrite Hgeneral. destruct (load_general j2 _) as [s1|]; [|done].
  cbn [mbind result_bind]. rewrite Hui.
  destruct (load_ui j2 s1) as [s2|]; [|done].
  cbn [mbind result_bind]. rewrite Hinstalls.
  destruct (load_installs j2 s2) as [s3|]; [|done].
  cbn [mbind result_bind]. rewrite Hexport.
  destruct (load_export j2 s3) as [s4|]; [|done].
  cbn [mbind result_bind]. apply Hweb.
Qed.

Lemma load_general_agree (m1 m2 : gmap string json) (s : Settings) :
  m1 !! "general" = m2 !! "general" →
  load_general (JObject m1) s = load_general (JObject m2) s.
Proof.
  intros Hsame. unfold load_general, member_value, count, at_key.
  by rewrite Hsame.
Qed.

Lemma load_ui_agree (m1 m2 : gmap string json) (s : Settings) :
  m1 !! "ui" = m2 !! "ui" →
  load_ui (JObject m1) s = load_ui (JObject m2) s.
Proof.
  intros Hsame.
  unfold load_ui, load_scheme_color, member_value, count, at_key.
  by rewrite Hsame.
Qed.

Lemma load_installs_agree (m1 m2 : gmap string json) (s : Settings) :
  m1 !! "installs" = m2 !! "installs" →
  load_installs (JObject m1) s = load_installs (JObject m2) s.
Proof.
  intros Hsame. unfold load_installs, member_value, count, at_key.
  by rewrite Hsame.
Qed.

Lemma load_export_agree (m1 m2 : gmap string json) (s : Settings) :
  m1 !! "installs" = m2 !! "installs" →
  (is_Some (m1 !! "export") ↔ is_Some (m2 !! "export")) →
  load_export (JObject m1) s = load_export (JObject m2) s.
Proof.
  intros Hsame Hexport. unfold load_export, member_value, count, at_key.
  rewrite Hsame. by rewrite (bool_decide_ext _ _ Hexport).
Qed.

Lemma load_web_agree (m1 m2 : gmap string json) (s : Settings) :
  m1 !! "web" = m2 !! "web" →
  load_web (JObject m1) s = load_web (JObject m2) s.
Proof.
  intros Hsame. unfold load_web, count, at_key. by rewrite Hsame.
Qed.

(** X9.  A load reads the sections general, ui, installs and web, and of
    section export only whether it is there: a member of the document under
    any other name changes nothing, and neither does what section export
    holds. *)
Theorem load_reads_known_sections (random_scheme : ColorScheme)
    (m : gmap string json) :
  (∀ k v, k ∉ ["general"; "ui"; "installs"; "export"; "web"] →
          merge_document random_scheme (JObject (<[ k := v ]> m))
          = merge_document random_scheme (JObject m))
  ∧ (∀ e1 e2,
       merge_document random_scheme (JObject (<[ "export" := e1 ]> m))
       = merge_document random_scheme (JObject (<[ "export" := e2 ]> m))).
Proof.
  split.
  - intros k v Hk.
    apply not_elem_of_cons in Hk as [Hgeneral Hk].
    apply not_elem_of_cons in Hk as [Hui Hk].
    apply not_elem_of_cons in Hk as [Hinstalls Hk].
    apply not_elem_of_cons in Hk as [Hexport Hk].
    apply not_elem_of_cons in Hk as [Hweb _].
    apply merge_document_congr; intros s.
    + apply load_general_agree. by rewrite lookup_insert_ne.
    + apply load_ui_agree. by rewrite lookup_insert_ne.
    + apply load_installs_agree. by rewrite lookup_insert_ne.
    + apply load_export_agree; by rewrite !lookup_insert_ne.
    + apply load_web_agree. by rewrite lookup_insert_ne.
  - intros e1 e2. apply merge_document_congr; intros s.
    + apply load_general_agree. by rewrite !lookup_insert_ne.
    + apply load_ui_agree. by rewrite !lookup_insert_ne.
    + apply load_installs_agree. by rewrite !lookup_insert_ne.
    + apply load_export_agree; [by rewrite !lookup_insert_ne|].
      rewrite !lookup_insert_eq. split; eauto.
    + apply load_web_agree. by rewrite !lookup_insert_ne.
Qed.

(** ** Sections of the wrong kind *)

Lemma section_not_object (m : gmap string json) (sect : string) (v : json) :
  m !! sect = Some v → not_object v → section (JObject m) sect = None.
Proof.
  intros Hv Hkind. unfold section. rewrite Hv.
  destruct v as [| | | | |sub]; try done. by destruct (Hkind sub).
Qed.

Lemma load_web_not_object (m : gmap string json) (v : json) (s : Settings) :
  m !! "web" = Some v → not_object v → load_web (JObject m) s = Ok s.
Proof.
  intros Hv Hkind. unfold load_web, count, at_key. rewrite Hv.
  rewrite bool_decide_eq_true_2 by eauto. cbn.
  destruct v as [| | | | |sub]; try done. by destruct (Hkind sub).
Qed.

(** X14.  A section general, ui or installs that is there but is not an
    object ends the load without a [Settings] value (for general, the
    first one read, with the container's type error 306).  A section web
    that is not an object is passed over: the load is that of the document
    without it. *)
Theorem load_section_kinds (random_scheme : ColorScheme)
    (m : gmap string json) (v : json) :
  not_object v →
  (m !! "general" = Some v →
   merge_document random_scheme (JObject m) = Fail (type_error 306))
  ∧ (m !! "ui" = Some v ∨ m !! "installs" = Some v →
     ¬ is_Ok (merge_document random_scheme (JObject m)))
  ∧ (m !! "web" = Some v →
     merge_document random_scheme (JObject m)
     = merge_document random_scheme (JObject (delete "web" m))).
Proof.
  intros Hkind. split; [|split].
  - intros Hv. unfold merge_document, load_general, member_value, count, at_key.
    rewrite Hv. rewrite bool_decide_eq_true_2 by eauto. cbn.
    destruct v as [| | | | |sub]; try done. by destruct (Hkind sub).
  - intros Hv [st Hload].
    apply merge_document_Ok in Hload
      as (s1 & s2 & s3 & s4 & _ & Hui & Hinstalls & _ & _).
    destruct Hv as [Hv|Hv].
    + unfold load_ui in Hui.
      assert (count (JObject m) "ui" = true) as Hcount
        by (cbn; apply bool_decide_eq_true_2; eauto).
      rewrite Hcount in Hui. bind_inv Hui as s' Hcolor.
      apply load_scheme_color_Ok in Hcolor as (clr & Hclr & _).
      apply member_value_Ok in Hclr as (sub & Hsub & _).
      by rewrite (section_not_object _ _ _ Hv Hkind) in Hsub.
    + unfold load_installs in Hinstalls.
      assert (count (JObject m) "installs" = true) as Hcount
        by (cbn; apply bool_decide_eq_true_2; eauto).
      rewrite Hcount in Hinstalls. bind_inv Hinstalls as fw Hfw.
      apply member_value_Ok in Hfw as (sub & Hsub & _).
      by rewrite (section_not_object _ _ _ Hv Hkind) in Hsub.
  - intros Hv. apply merge_document_congr; intros s.
    + apply load_general_agree. by rewrite lookup_delete_ne.
    + apply load_ui_agree. by rewrite lookup_delete_ne.
    + apply load_installs_agree. by rewrite lookup_delete_ne.
    + apply load_export_agree; by rewrite !lookup_delete_ne.
    + rewrite (load_web_not_object _ _ _ Hv Hkind).
      unfold load_web, count. rewrite lookup_delete_eq.
      by rewrite bool_decide_eq_false_2 by (by intros [? ?]).
Qed.

(** ** The members a load copies *)

(** Splits a load into its five blocks; [Hgeneral], [Hui], [Hinstalls],
    [Hexport] and [Hweb] say which members each block may have changed, the
    hypotheses ending in [0] keep the blocks themselves. *)
Ltac load_blocks Hload :=
  let s1 := fresh "s1" in
  let s2 := fresh "s2" in
  let s3 := fresh "s3" in
  let s4 := fresh "s4" in
  let Hgeneral := fresh "Hgeneral" in
  let Hui := fresh "Hui" in
  let Hinstalls := fresh "Hinstalls" in
  let Hexport := fresh "Hexport" in
  let Hweb := fresh "Hweb" in
  apply merge_document_Ok in Hload
    as (s1 & s2 & s3 & s4 & Hgeneral & Hui & Hinstalls & Hexport & Hweb);
  pose proof Hgeneral as Hgeneral0; apply load_general_frame in Hgeneral;
  pose proof Hui as Hui0; apply load_ui_frame in Hui;
  pose proof Hinstalls as Hinstalls0; apply load_installs_frame in Hinstalls;
  pose proof Hexport as Hexport0; apply load_export_frame in Hexport;
  apply load_web_Ok in Hweb.

Lemma member_no_section (j : json) (sect key : string) :
  count j sect = false → member j sect key = None.
Proof.
  unfold member, section. intros Hcount.
  destruct j as [| | | | |m]; try done. by rewrite (count_false _ _ Hcount).
Qed.

Lemma member_value_bool_Ok (j : json) (sect key : string) (d v : bool) :
  member_value get_bool j sect key d = Ok v → bool_loaded j sect key d v.
Proof.
  intros (sub & Hsub & Hkey)%member_value_Ok. unfold bool_loaded, member.
  rewrite Hsub. cbn. destruct (sub !! key) as [x|]; [|done].
  destruct x; cbn in Hkey; congruence.
Qed.

Lemma member_value_size_Ok (j : json) (sect key : string) (d v : Z) :
  member_value (get_unsigned buffer_size_bits true) j sect key d = Ok v →
  size_loaded j sect key d v.
Proof.
  intros (sub & Hsub & Hkey)%member_value_Ok. unfold size_loaded, member.
  rewrite Hsub. cbn. destruct (sub !! key) as [x|]; [|done].
  apply get_unsigned_Ok in Hkey as [(z & -> & ->)|(b & _ & [=] & _)]. eauto.
Qed.

Lemma load_general_toggles (j : json) (s s' : Settings) :
  load_general j s = Ok s' →
  bool_loaded j "general" "use12hTime" (use_12h_time s) (use_12h_time s')
  ∧ bool_loaded j "general" "ignoreHiddenFiles" (ignore_hidden_files s)
      (ignore_hidden_files s').
Proof.
  unfold load_general. destruct (count j "general") eqn:Hcount; cycle 1.
  { intros [= <-]. unfold bool_loaded. by rewrite !member_no_section. }
  intros Hload.
  bind_inv Hload as lang Hlang. bind_inv Hload as ext_romfs Hext.
  bind_inv Hload as t12 Ht12. bind_inv Hload as hidden Hhidden.
  injection Hload as <-.
  apply member_value_bool_Ok in Ht12, Hhidden.
  destruct (String_empty lang), (String_empty ext_romfs); by cbn in *.
Qed.

Lemma load_general_language (j : json) (s s' : Settings) :
  load_general j s = Ok s' →
  match language_override j with
  | Some code => has_custom_lang s' = true
                 ∧ custom_lang s' = GetLanguageByCode code
  | None => has_custom_lang s' = has_custom_lang s
            ∧ custom_lang s' = custom_lang s
  end.
Proof.
  unfold load_general, language_override.
  destruct (count j "general") eqn:Hcount; cycle 1.
  { intros [= <-]. by rewrite member_no_section. }
  intros Hload.
  bind_inv Hload as lang Hlang. bind_inv Hload as ext_romfs Hext.
  bind_inv Hload as t12 Ht12. bind_inv Hload as hidden Hhidden.
  injection Hload as <-.
  apply member_value_string_Ok in Hlang as [-> | [-> ->]].
  - destruct (String_empty lang), (String_empty ext_romfs); by cbn.
  - destruct (String_empty ext_romfs); by cbn.
Qed.

Lemma load_installs_fields (j : json) (s s' : Settings) :
  load_installs j s = Ok s' →
  bool_loaded j "installs" "ignoreRequiredFwVersion"
    (ignore_required_fw_ver s) (ignore_required_fw_ver s')
  ∧ bool_loaded j "installs" "showDeletionPromptAfterInstall"
      (show_deletion_prompt_after_install s)
      (show_deletion_prompt_after_install s')
  ∧ size_loaded j "installs" "copyBufferMaxSize" (copy_buffer_max_size s)
      (copy_buffer_max_size s').
Proof.
  unfold load_installs. destruct (count j "installs") eqn:Hcount; cycle 1.
  { intros [= <-]. unfold bool_loaded, size_loaded.
    by rewrite !member_no_section. }
  intros Hload.
  bind_inv Hload as fw Hfw. bind_inv Hload as prompt Hprompt.
  bind_inv Hload as size Hsize. injection Hload as <-.
  apply member_value_bool_Ok in Hfw, Hprompt.
  apply member_value_size_Ok in Hsize. by cbn in *.
Qed.

(** X10.  After a load each of the four toggles is the boolean its member
    holds, and without the member its default: false for [use12hTime],
    [ignoreHiddenFiles] and [showDeletionPromptAfterInstall], true for
    [ignoreRequiredFwVersion]. *)
Theorem load_toggles (random_scheme : ColorScheme) (j : json) (st : Settings) :
  merge_document random_scheme j = Ok st →
  bool_loaded j "general" "use12hTime" false (use_12h_time st)
  ∧ bool_loaded j "general" "ignoreHiddenFiles" false (ignore_hidden_files st)
  ∧ bool_loaded j "installs" "ignoreRequiredFwVersion" true
      (ignore_required_fw_ver st)
  ∧ bool_loaded j "installs" "showDeletionPromptAfterInstall" false
      (show_deletion_prompt_after_install st).
Proof.
  intros Hload. load_blocks Hload.
  apply load_general_toggles in Hgeneral0 as [H12 Hhidden].
  apply load_installs_fields in Hinstalls0 as (Hfw & Hprompt & _).
  assert (use_12h_time st = use_12h_time s1
          ∧ ignore_hidden_files st = ignore_hidden_files s1
          ∧ ignore_required_fw_ver st = ignore_required_fw_ver s3
          ∧ show_deletion_prompt_after_install st
            = show_deletion_prompt_after_install s3) as (-> & -> & -> & ->).
  { subst st. cbn. rewrite Hexport. cbn. rewrite Hinstalls. cbn.
    rewrite Hui. by cbn. }
  assert (ignore_required_fw_ver s2 = true
          ∧ show_deletion_prompt_after_install s2 = false) as [Hfw0 Hprompt0].
  { rewrite Hui. cbn. rewrite Hgeneral. by cbn. }
  rewrite Hfw0 in Hfw. rewrite Hprompt0 in Hprompt. done.
Qed.


(** X13.  After a load [has_custom_lang] is set exactly when
    [general.customLanguage] is a non-empty text, and [custom_lang] is then
    [GetLanguageByCode] of that text. *)
Theorem load_custom_language (random_scheme : ColorScheme) (j : json)
    (st : Settings) :
  merge_document random_scheme j = Ok st →
  match language_override j with
  | Some code => has_custom_lang st = true
                 ∧ custom_lang st = GetLanguageByCode code
  | None => has_custom_lang st = false
  end.
Proof.
  intros Hload. load_blocks Hload.
  apply load_general_language in Hgeneral0.
  assert (has_custom_lang st = has_custom_lang s1
          ∧ custom_lang st = custom_lang s1) as [-> ->].
  { subst st. cbn. rewrite Hexport, Hinstalls, Hui. by cbn. }
  destruct (language_override j); [done|]. by destruct Hgeneral0 as [-> _].
Qed.

(** ** The bar colors and the integer ranges *)

Lemma load_scheme_color_rest (j : json) (key : string)
    (assign : Color → ColorScheme → ColorScheme) (s s' : Settings) :
  load_scheme_color j key assign s = Ok s' →
  s' = set_custom_scheme (custom_scheme s')
         (set_has_custom_scheme (has_custom_scheme s') s).
Proof.
  intros (clr & _ & Hs')%load_scheme_color_Ok.
  destruct (String_empty clr); [subst s'|destruct Hs' as (c & _ & ->)];
    by destruct s.
Qed.

(** The blocks of [load_ui] after the four scheme colors. *)
Lemma load_ui_Ok (j : json) (s s' : Settings) :
  load_ui j s = Ok s' → count j "ui" = true →
  ∃ s4 size sb_clr s5 pb_clr,
    s4 = set_custom_scheme (custom_scheme s4)
           (set_has_custom_scheme (has_custom_scheme s4) s)
    ∧ member_value (get_unsigned menu_item_size_bits false) j "ui"
        "menuItemSize" (menu_item_size s4) = Ok size
    ∧ member_value get_string j "ui" "scrollBar" EmptyString = Ok sb_clr
    ∧ (if String_empty sb_clr then s5 = set_menu_item_size size s4
       else ∃ c, FromHex sb_clr = Some c
                 ∧ s5 = set_scrollbar_color c
                          (set_has_scrollbar_color true
                             (set_menu_item_size size s4)))
    ∧ member_value get_string j "ui" "progressBar" EmptyString = Ok pb_clr
    ∧ (if String_empty pb_clr then s' = s5
       else ∃ c, FromHex pb_clr = Some c
                 ∧ s' = set_progressbar_color c
                          (set_has_progressbar_color true s5)).
Proof.
  unfold load_ui. intros Hload Hcount. rewrite Hcount in Hload.
  bind_inv Hload as s1 H1. bind_inv Hload as s2 H2.
  bind_inv Hload as s3 H3. bind_inv Hload as s4 H4.
  bind_inv Hload as size Hsize. bind_inv Hload as sb_clr Hsb_clr.
  bind_inv Hload as s5 H5. bind_inv Hload as pb_clr Hpb_clr.
  exists s4, size, sb_clr, s5, pb_clr.
  apply load_scheme_color_rest in H1, H2, H3, H4.
  split. { rewrite H4, H3, H2, H1. by destruct s. }
  split; [done|]. split; [done|]. split.
  { destruct (String_empty sb_clr); cbn in H5; [congruence|].
    by apply assign_FromHex_Ok in H5. }
  split; [done|].
  destruct (String_empty pb_clr); cbn in Hload; [congruence|].
  by apply assign_FromHex_Ok in Hload.
Qed.

Lemma color_override_string (j : json) (key clr : string) :
  member_value get_string j "ui" key EmptyString = Ok clr →
  color_override j key = if String_empty clr then None else Some clr.
Proof.
  unfold color_override.
  intros [-> | [-> ->]]%member_value_string_Ok; reflexivity.
Qed.

Lemma load_ui_bars (j : json) (s s' : Settings) :
  load_ui j s = Ok s' →
  match color_override j "scrollBar" with
  | Some clr => has_scrollbar_color s' = true
                ∧ FromHex clr = Some (scrollbar_color s')
  | None => has_scrollbar_color s' = has_scrollbar_color s
            ∧ scrollbar_color s' = scrollbar_color s
  end
  ∧ match color_override j "progressBar" with
    | Some clr => has_progressbar_color s' = true
                  ∧ FromHex clr = Some (progressbar_color s')
    | None => has_progressbar_color s' = has_progressbar_color s
              ∧ progressbar_color s' = progressbar_color s
    end.
Proof.
  intros Hload. destruct (count j "ui") eqn:Hcount; cycle 1.
  { rewrite !color_override_no_ui by done.
    unfold load_ui in Hload. rewrite Hcount in Hload. by injection Hload as <-. }
  apply load_ui_Ok in Hload
    as (s4 & size & sb_clr & s5 & pb_clr & H4 & _ & Hsb & H5 & Hpb & Hs');
    [|done].
  rewrite (color_override_string _ _ _ Hsb), (color_override_string _ _ _ Hpb).
  destruct (String_empty sb_clr), (String_empty pb_clr).
  - subst s' s5. rewrite H4. by cbn.
  - destruct Hs' as (c & Hc & ->). subst s5. rewrite H4. by cbn.
  - destruct H5 as (c & Hc & ->). subst s'. rewrite H4. by cbn.
  - destruct H5 as (c & Hc & ->). destruct Hs' as (c' & Hc' & ->).
    rewrite H4. by cbn.
Qed.

(** X12.  After a load [has_scrollbar_color] is set exactly when
    [ui.scrollBar] is a non-empty text, and [scrollbar_color] is then the
    color decoded from it; the same for [ui.progressBar],
    [has_progressbar_color] and [progressbar_color]. *)
Theorem load_bar_colors (random_scheme : ColorScheme) (j : json) (st : Settings) :
  merge_document random_scheme j = Ok st →
  match color_override j "scrollBar" with
  | Some clr => has_scrollbar_color st = true
                ∧ FromHex clr = Some (scrollbar_color st)
  | None => has_scrollbar_color st = false
  end
  ∧ match color_override j "progressBar" with
    | Some clr => has_progressbar_color st = true
                  ∧ FromHex clr = Some (progressbar_color st)
    | None => has_progressbar_color st = false
    end.
Proof.
  intros Hload. load_blocks Hload.
  apply load_ui_bars in Hui0 as [Hsb Hpb].
  assert (has_scrollbar_color st = has_scrollbar_color s2
          ∧ scrollbar_color st = scrollbar_color s2
          ∧ has_progressbar_color st = has_progressbar_color s2
          ∧ progressbar_color st = progressbar_color s2) as (-> & -> & -> & ->).
  { subst st. cbn. rewrite Hexport, Hinstalls. by cbn. }
  assert (has_scrollbar_color s1 = false ∧ has_progressbar_color s1 = false)
    as [Hsb0 Hpb0] by (rewrite Hgeneral; by cbn).
  rewrite Hsb0 in Hsb. rewrite Hpb0 in Hpb.
  split.
  - destruct (color_override j "scrollBar"); [done|]. by destruct Hsb.
  - destruct (color_override j "progressBar"); [done|]. by destruct Hpb.
Qed.

Lemma wrap_range (bits z : Z) : (0 ≤ bits)%Z → (0 ≤ wrap bits z < 2 ^ bits)%Z.
Proof. intros Hbits. unfold wrap. apply Z.mod_pos_bound. by apply Z.pow_pos_nonneg. Qed.

Lemma load_ui_menu_range (j : json) (s s' : Settings) :
  load_ui j s = Ok s' →
  (0 ≤ menu_item_size s < 2 ^ menu_item_size_bits)%Z →
  (0 ≤ menu_item_size s' < 2 ^ menu_item_size_bits)%Z.
Proof.
  intros Hload Hrange. destruct (count j "ui") eqn:Hcount; cycle 1.
  { unfold load_ui in Hload. rewrite Hcount in Hload. by injection Hload as <-. }
  apply load_ui_Ok in Hload
    as (s4 & size & sb_clr & s5 & pb_clr & H4 & Hsize & _ & H5 & _ & Hs');
    [|done].
  assert (menu_item_size s' = size) as ->.
  { destruct (String_empty sb_clr), (String_empty pb_clr).
    - by subst s' s5.
    - destruct Hs' as (c & _ & ->). by subst s5.
    - destruct H5 as (c & _ & ->). by subst s'.
    - destruct H5 as (c & _ & ->). by destruct Hs' as (c' & _ & ->). }
  apply member_value_Ok in Hsize as (sub & _ & Hsize).
  destruct (sub !! "menuItemSize") as [x|].
  - apply get_unsigned_Ok in Hsize as [(z & _ & ->)|(b & _ & _ & ->)].
    + by apply wrap_range.
    + by destruct b.
  - subst size. rewrite H4. by cbn.
Qed.

Lemma size_loaded_range (j : json) (sect key : string) (d v : Z) :
  size_loaded j sect key d v →
  (0 ≤ d < 2 ^ buffer_size_bits)%Z → (0 ≤ v < 2 ^ buffer_size_bits)%Z.
Proof.
  unfold size_loaded. destruct (member j sect key).
  - intros (z & _ & ->) _. by apply wrap_range.
  - by intros ->.
Qed.

Lemma merge_document_menu_range (random_scheme : ColorScheme) (j : json)
    (st : Settings) :
  merge_document random_scheme j = Ok st →
  (0 ≤ menu_item_size st < 2 ^ menu_item_size_bits)%Z.
Proof.
  intros Hload. load_blocks Hload.
  assert (menu_item_size st = menu_item_size s2) as ->.
  { subst st. cbn. rewrite Hexport. cbn. rewrite Hinstalls. by cbn. }
  apply (load_ui_menu_range _ _ _ Hui0). rewrite Hgeneral. by cbn.
Qed.

Lemma merge_document_copy_range (random_scheme : ColorScheme) (j : json)
    (st : Settings) :
  merge_document random_scheme j = Ok st →
  (0 ≤ copy_buffer_max_size st < 2 ^ buffer_size_bits)%Z.
Proof.
  intros Hload. load_blocks Hload.
  assert (copy_buffer_max_size st = copy_buffer_max_size s3) as ->.
  { subst st. cbn. rewrite Hexport. by cbn. }
  apply load_installs_fields in Hinstalls0 as (_ & _ & Hsize).
  apply (size_loaded_range _ _ _ _ _ Hsize).
  rewrite Hui. cbn. rewrite Hgeneral. by cbn.
Qed.

Lemma load_export_range (j : json) (s s' : Settings) :
  load_export j s = Ok s' →
  (0 ≤ decrypt_buffer_max_size s < 2 ^ buffer_size_bits)%Z →
  (0 ≤ decrypt_buffer_max_size s' < 2 ^ buffer_size_bits)%Z.
Proof.
  intros Hload Hrange. destruct (count j "export") eqn:Hcount.
  - apply load_export_decrypt in Hload as (installs & _ & Hvalue); [|done].
    destruct (installs !! "decryptBufferMaxSize").
    + destruct Hvalue as (z & _ & ->). by apply wrap_range.
    + by rewrite Hvalue.
  - unfold load_export in Hload. rewrite Hcount in Hload.
    by injection Hload as <-.
Qed.


(** ** [Save] and then a load, for any flags *)

(** Reads the member [key] of a saved section whose content [Hsection]
    gives. *)
Ltac read_saved Hsection key :=
  rewrite (member_value_section _ _ _ key _ _ Hsection); simpl_map;
  cbn [get_string get_bool get_unsigned mbind result_bind String_empty negb].

Lemma load_general_saved_any (this s : Settings) :
  (has_custom_lang this = true →
   GetLanguageCode (custom_lang this) ≠ EmptyString
   ∧ GetLanguageByCode (GetLanguageCode (custom_lang this)) = custom_lang this) →
  (has_external_romfs this = true →
   substring 0 6 (external_romfs this) = "sdmc:/") →
  load_general (saved_document this) s
  = Ok (set_ignore_hidden_files (ignore_hidden_files this)
          (set_use_12h_time (use_12h_time this)
             ((if has_external_romfs this
               then λ s, set_external_romfs (external_romfs this)
                           (set_has_external_romfs true s)
               else id)
                ((if has_custom_lang this
                  then λ s, set_custom_lang (custom_lang this)
                              (set_has_custom_lang true s)
                  else id) s)))).
Proof.
  intros Hlang Hromfs.
  pose proof (section_general_saved this) as Hsection.
  unfold load_general, saved_general in *.
  rewrite (count_section _ _ _ Hsection).
  destruct (has_custom_lang this), (has_external_romfs this);
    cbv [id] in Hsection |- *.
  - destruct (Hlang eq_refl) as [Hcode%String_empty_false Hcodec].
    specialize (Hromfs eq_refl).
    read_saved Hsection "customLanguage". rewrite Hcode, Hcodec. cbn [negb].
    read_saved Hsection "externalRomFs".
    rewrite (prefix_not_empty _ Hromfs), (external_romfs_for_fixed _ Hromfs).
    cbn [negb]. read_saved Hsection "use12hTime".
    by read_saved Hsection "ignoreHiddenFiles".
  - destruct (Hlang eq_refl) as [Hcode%String_empty_false Hcodec].
    read_saved Hsection "customLanguage". rewrite Hcode, Hcodec. cbn [negb].
    read_saved Hsection "externalRomFs". read_saved Hsection "use12hTime".
    by read_saved Hsection "ignoreHiddenFiles".
  - specialize (Hromfs eq_refl).
    read_saved Hsection "customLanguage". read_saved Hsection "externalRomFs".
    rewrite (prefix_not_empty _ Hromfs), (external_romfs_for_fixed _ Hromfs).
    cbn [negb]. read_saved Hsection "use12hTime".
    by read_saved Hsection "ignoreHiddenFiles".
  - read_saved Hsection "customLanguage". read_saved Hsection "externalRomFs".
    read_saved Hsection "use12hTime".
    by read_saved Hsection "ignoreHiddenFiles".
Qed.

Ltac read_color Hsection key :=
  read_saved Hsection key;
  rewrite ?ColorToHex_not_empty, ?assign_FromHex_ColorToHex;
  cbn [negb mbind result_bind].

Lemma load_ui_saved_any (this s : Settings) :
  (0 ≤ menu_item_size this < 2 ^ menu_item_size_bits)%Z →
  load_ui (saved_document this) s
  = Ok ((if has_progressbar_color this
         then λ s, set_progressbar_color (progressbar_color this)
                     (set_has_progressbar_color true s)
         else id)
          ((if has_scrollbar_color this
            then λ s, set_scrollbar_color (scrollbar_color this)
                        (set_has_scrollbar_color true s)
            else id)
             (set_menu_item_size (menu_item_size this)
                ((if has_custom_scheme this
                  then λ s, set_custom_scheme (custom_scheme this)
                              (set_has_custom_scheme true s)
                  else id) s)))).
Proof.
  intros Hsize. pose proof (section_ui_saved this) as Hsection.
  unfold load_ui, load_scheme_color, saved_ui, saved_scheme in *.
  rewrite (count_section _ _ _ Hsection).
  destruct (has_custom_scheme this), (has_scrollbar_color this),
    (has_progressbar_color this); cbv [id] in Hsection |- *;
    read_color Hsection "background"; read_color Hsection "base";
    read_color Hsection "baseFocus"; read_color Hsection "text";
    read_saved Hsection "menuItemSize"; rewrite (wrap_in_range _ _ Hsize);
    read_color Hsection "scrollBar"; read_color Hsection "progressBar";
    destruct s, (custom_scheme this); reflexivity.
Qed.

Lemma merge_saved_document_any (random_scheme : ColorScheme) (this : Settings) :
  Settings_in_range this →
  (has_custom_lang this = true →
   GetLanguageCode (custom_lang this) ≠ EmptyString
   ∧ GetLanguageByCode (GetLanguageCode (custom_lang this)) = custom_lang this) →
  (has_external_romfs this = true →
   substring 0 6 (external_romfs this) = "sdmc:/") →
  Forall nonempty_bookmark (bookmarks this) →
  merge_document random_scheme (saved_document this)
  = Ok (reloaded random_scheme this).
Proof.
  intros (Hmenu & Hcopy & _) Hlang Hromfs Hbmks.
  unfold merge_document.
  rewrite load_general_saved_any by done. cbn [mbind result_bind].
  rewrite load_ui_saved_any by done. cbn [mbind result_bind].
  rewrite load_installs_saved by done. cbn [mbind result_bind].
  rewrite load_export_saved. cbn [mbind result_bind].
  rewrite load_web_saved by done.
  unfold reloaded. destruct this as [f1 ? f2 ? ? ? f3 ? ? f4 ? f5 ? ? ? ? ? ?].
  cbn. by destruct f1, f2, f3, f4, f5.
Qed.

(** X6.  [Save] followed by a load, for any flags.  For a [Settings] value
    with its integers within their types and no bookmark with an empty name
    or url, whose [external_romfs] begins with [sdmc:/] when
    [has_external_romfs] is set and whose language code is not empty and
    maps back when [has_custom_lang] is set, the load of the saved document
    ends with the same flags, toggles, [menu_item_size],
    [copy_buffer_max_size] and bookmarks; an optional member comes back
    when its flag is set and is the load's initial one when the flag is
    clear (for the scheme, the newly generated one);
    [decrypt_buffer_max_size] comes back as 16 MiB. *)
Theorem Save_load_any_flags (random_scheme : ColorScheme) (this : Settings) :
  Settings_in_range this →
  (has_custom_lang this = true →
   GetLanguageCode (custom_lang this) ≠ EmptyString
   ∧ GetLanguageByCode (GetLanguageCode (custom_lang this)) = custom_lang this) →
  (has_external_romfs this = true →
   substring 0 6 (external_romfs this) = "sdmc:/") →
  Forall nonempty_bookmark (bookmarks this) →
  ∃ doc, Save_document this = Ok doc
         ∧ merge_document random_scheme doc = Ok (reloaded random_scheme this).
Proof.
  intros Hrange Hlang Hromfs Hbmks.
  exists (saved_document this). split; [apply Save_document_eq|].
  by apply merge_saved_document_any.
Qed.

(** X7.  Whatever [decrypt_buffer_max_size] is saved, a load of the saved
    document that ends with a [Settings] value ends with 16 MiB: [Save]
    writes the size in section export and the load looks for it in section
    installs. *)
Theorem Save_load_decrypt_default (random_scheme : ColorScheme)
    (this loaded : Settings) (doc : json) :
  Save_document this = Ok doc →
  merge_document random_scheme doc = Ok loaded →
  decrypt_buffer_max_size loaded = (16 * 1024 * 1024)%Z.
Proof.
  rewrite Save_document_eq. intros [= <-] Hload. load_blocks Hload.
  rewrite load_export_saved in Hexport0. injection Hexport0 as <-.
  subst loaded. cbn. rewrite Hinstalls. cbn. rewrite Hui. cbn.
  rewrite Hgeneral. by cbn.
Qed.

(** ** The entries of the bookmark array *)

Lemma value_string_entry (item : json) (key v : string) :
  value get_string item key EmptyString = Ok v →
  ∃ m, item = JObject m ∧ text_or_absent m key.
Proof.
  intros (m & -> & [Hkey|[Hkey _]])%value_string_Ok; exists m;
    (split; [done|]); [right|left]; eauto.
Qed.

Lemma load_bookmarks_entries (items : list json) (k i : nat) (s s' : Settings) :
  i + k = length items →
  load_bookmarks (JArray items) (seq i k) s = Ok s' →
  Forall bookmark_entry (drop i items).
Proof.
  revert i s s'.
  induction k as [|k IH]; intros i s s' Hlen; cbn [seq load_bookmarks].
  - intros _. rewrite drop_ge by lia. constructor.
  - intros Hload. bind_inv Hload as item Hitem.
    bind_inv Hload as bmk_name Hname. bind_inv Hload as bmk_url Hurl.
    cbn in Hitem. destruct (items !! i) as [item'|] eqn:Hi; [|discriminate].
    injection Hitem as ->. rewrite (drop_S _ _ _ Hi). constructor.
    + apply value_string_entry in Hname as (m & -> & Hname).
      apply value_string_entry in Hurl as (m' & [= <-] & Hurl).
      by exists m.
    + eapply IH; [|exact Hload]. lia.
Qed.

(** X15.  When [web.bookmarks] is an array, the bookmark block gets
    through exactly when every entry is an object whose [name] and [url]
    are texts or absent; any other entry (a number, a text, an object with
    a [name] that is not a text) ends the load. *)
Theorem bookmark_entries_checked (j : json) (s : Settings) (items : list json) :
  member j "web" "bookmarks" = Some (JArray items) →
  is_Ok (load_web j s) ↔ Forall bookmark_entry items.
Proof.
  intros Hmember. split.
  - intros [s' Hload]. revert Hmember Hload. unfold member, section, load_web.
    destruct j as [| | | | |m]; try discriminate.
    destruct (m !! "web") as [[| | | | |w]|] eqn:Hweb; try discriminate.
    cbn. intros Hbmk.
    rewrite (bool_decide_eq_true_2 _ (mk_is_Some _ _ Hweb)), Hweb. cbn.
    rewrite (bool_decide_eq_true_2 _ (mk_is_Some _ _ Hbmk)), Hbmk. cbn.
    intros Hload%load_bookmarks_entries; [|done]. by rewrite drop_0 in Hload.
  - intros Hitems. rewrite (load_web_total _ _ items) by done. apply is_Ok_Ok.
Qed.

(** ** [ReadJSONResource] *)

(** X16.  [ReadJSONResource] reads the document at the path
    [PathForResource] returns, from the SD card when that is the external
    path and from the bundled root otherwise.  When the external file is
    there the bundled root is not consulted, not even when the file cannot
    be read; with [has_external_romfs] clear the SD card is not
    consulted. *)
Theorem ReadJSONResource_precedence (romfs_exp sd_exp : Explorer)
    (this : Settings) (res_path : string) :
  let ext_path := (external_romfs this +:+ "/") +:+ res_path in
  ReadJSONResource romfs_exp sd_exp this res_path
  = ReadJSON (if has_external_romfs this && IsFile sd_exp ext_path
              then sd_exp else romfs_exp)
      (PathForResource romfs_exp sd_exp this res_path)
  ∧ (has_external_romfs this = true → IsFile sd_exp ext_path = true →
     ∀ romfs_exp',
       ReadJSONResource romfs_exp' sd_exp this res_path
       = ReadJSON sd_exp ext_path)
  ∧ (has_external_romfs this = true →
     entries sd_exp !! ext_path = Some (File Malformed) →
     ReadJSONResource romfs_exp sd_exp this res_path = Fail unreadable_document)
  ∧ (has_external_romfs this = false →
     ∀ sd_exp',
       ReadJSONResource romfs_exp sd_exp' this res_path
       = ReadJSON romfs_exp (MakeAbsolute romfs_exp res_path)).
Proof.
  intros ext_path. unfold ReadJSONResource, PathForResource. fold ext_path.
  split; [|split; [|split]].
  - by destruct (has_external_romfs this), (IsFile sd_exp ext_path).
  - by intros -> ->.
  - intros -> Hfile. unfold IsFile, ReadJSON. by rewrite Hfile.
  - by intros ->.
Qed.

(** ** [EnsureDefaultLanguage] *)

(** X18.  Once [EnsureDefaultLanguage] has returned, the default language
    is loaded and a further call changes nothing.  When it is not loaded
    and the host cannot give or convert its language code, the call is
    fatal, and so is [GetLanguage] unless the settings carry a custom
    language, which is returned without asking. *)
Theorem EnsureDefaultLanguage_once :
  (∀ p p', EnsureDefaultLanguage p = Ok p' →
           g_DefaultLanguageLoaded p' = true
           ∧ EnsureDefaultLanguage p' = Ok p'
           ∧ (g_DefaultLanguageLoaded p = true → p' = p))
  ∧ (∀ p, g_DefaultLanguageLoaded p = false →
          host_language_code p = None
          ∨ (∃ code, host_language_code p = Some code
                     ∧ setMakeLanguage code = None) →
          EnsureDefaultLanguage p = Fail fatal_assert
          ∧ ∀ this, GetLanguage this p
                    = if has_custom_lang this then Ok (custom_lang this, p)
                      else Fail fatal_assert).
Proof.
  split.
  - intros p p'. unfold EnsureDefaultLanguage.
    destruct (g_DefaultLanguageLoaded p) eqn:Hloaded; cbn.
    + rewrite Hloaded. intros [= <-]. by rewrite Hloaded; cbn; rewrite Hloaded.
    + destruct (host_language_code p) as [code|]; [|discriminate].
      destruct (setMakeLanguage code); [|discriminate].
      cbn. intros [= <-]. by cbn.
  - intros p Hloaded Hhost.
    assert (EnsureDefaultLanguage p = Fail fatal_assert) as Hfatal.
    { unfold EnsureDefaultLanguage. rewrite Hloaded. cbn.
      destruct Hhost as [->|(code & -> & ->)]; reflexivity. }
    split; [exact Hfatal|]. intros this. unfold GetLanguage.
    destruct (has_custom_lang this); [done|]. by rewrite Hfatal.
Qed.

(** ** Loaded values *)

Lemma substring_prefix_app (a b : string) :
  substring 0 6 a = "sdmc:/" → substring 0 6 (a +:+ b) = "sdmc:/".
Proof.
  intros Hprefix.
  do 6 (destruct a as [|? a]; [discriminate|]).
  cbn in Hprefix. cbv [String.append]. cbn.
  assert (∀ str, substring 0 0 str = EmptyString) as Hnone by (by intros []).
  rewrite Hnone in Hprefix |- *. exact Hprefix.
Qed.

Lemma load_external_romfs_prefix (random_scheme : ColorScheme) (j : json)
    (st : Settings) :
  merge_document random_scheme j = Ok st →
  if has_external_romfs st
  then substring 0 6 (external_romfs st) = "sdmc:/"
  else external_romfs st = EmptyString.
Proof.
  intros Hload. load_blocks Hload.
  apply load_general_romfs in Hgeneral0.
  assert (has_external_romfs st = has_external_romfs s1
          ∧ external_romfs st = external_romfs s1) as [-> ->].
  { subst st. cbn. rewrite Hexport, Hinstalls, Hui. by cbn. }
  destruct (member j "general" "externalRomFs") as [[| | |e| |]|];
    try done; cbn in Hgeneral0.
  - destruct (String_empty e); destruct Hgeneral0 as [-> ->]; [done|].
    apply external_romfs_for_prefix.
  - by destruct Hgeneral0 as [-> ->].
Qed.

(** X17.  In a loaded [Settings] value [external_romfs] begins with
    [sdmc:/] whenever [has_external_romfs] is set (and is empty when not),
    so every external path [PathForResource] returns for it begins with
    [sdmc:/]. *)
Theorem loaded_resource_paths (random_scheme : ColorScheme) (j : json)
    (st : Settings) (romfs_exp sd_exp : Explorer) (res_path : string) :
  merge_document random_scheme j = Ok st →
  (if has_external_romfs st
   then substring 0 6 (external_romfs st) = "sdmc:/"
   else external_romfs st = EmptyString)
  ∧ (PathForResource romfs_exp sd_exp st res_path
     = MakeAbsolute romfs_exp res_path
     ∨ substring 0 6 (PathForResource romfs_exp sd_exp st res_path) = "sdmc:/").
Proof.
  intros Hprefix%load_external_romfs_prefix. split; [exact Hprefix|].
  unfold PathForResource. destruct (has_external_romfs st); [|by left].
  destruct (IsFile sd_exp _); [right|by left].
  by do 2 apply substring_prefix_app.
Qed.

Lemma load_scheme_without_override (random_scheme : ColorScheme) (j : json)
    (st : Settings) :
  merge_document random_scheme j = Ok st →
  has_custom_scheme st = false → custom_scheme st = random_scheme.
Proof.
  intros (Hbg & Hbase & Hfocus & Htext & Hflag)%merge_document_scheme Hclear.
  rewrite Hclear in Hflag. revert Hbg Hbase Hfocus Htext Hflag.
  unfold color_loaded, has_override.
  destruct (color_override j "background"), (color_override j "base"),
    (color_override j "baseFocus"), (color_override j "text");
    try discriminate.
  intros. destruct (custom_scheme st), random_scheme; cbn in *. congruence.
Qed.

(** X20.  Saving a loaded value and loading the saved document gives the
    loaded value again, with [decrypt_buffer_max_size] at 16 MiB, when the
    load generates the same scheme and, where a custom language was loaded,
    its code is not empty and maps back to it. *)
Theorem load_Save_load (random_scheme : ColorScheme) (j : json) (st : Settings) :
  merge_document random_scheme j = Ok st →
  (has_custom_lang st = true →
   GetLanguageCode (custom_lang st) ≠ EmptyString
   ∧ GetLanguageByCode (GetLanguageCode (custom_lang st)) = custom_lang st) →
  ∃ doc, Save_document st = Ok doc
         ∧ merge_document random_scheme doc
           = Ok (set_decrypt_buffer_max_size (16 * 1024 * 1024) st).
Proof.
  intros Hload Hcodec.
  assert (Settings_in_range st) as Hrange.
  { split; [by eapply merge_document_menu_range|].
    split; [by eapply merge_document_copy_range|].
    clear -Hload. load_blocks Hload.
    assert (decrypt_buffer_max_size st = decrypt_buffer_max_size s4) as ->
      by (by subst st).
    apply (load_export_range _ _ _ Hexport0).
    rewrite Hinstalls. cbn. rewrite Hui. cbn. rewrite Hgeneral. by cbn. }
  pose proof (load_external_romfs_prefix _ _ _ Hload) as Hromfs.
  pose proof (load_scheme_without_override _ _ _ Hload) as Hscheme.
  pose proof (merge_document_bookmarks _ _ _ Hload) as Hbmks.
  assert (has_custom_lang st = false → custom_lang st = Language_zero) as Hlang0.
  { clear -Hload. intros Hclear. load_blocks Hload.
    apply load_general_language in Hgeneral0.
    assert (has_custom_lang st = has_custom_lang s1
            ∧ custom_lang st = custom_lang s1) as [Hflag ->].
    { subst st. cbn. rewrite Hexport, Hinstalls, Hui. by cbn. }
    rewrite Hflag in Hclear.
    destruct (language_override j); destruct Hgeneral0 as [Hset Hvalue];
      [congruence|]. by rewrite Hvalue. }
  assert (has_scrollbar_color st = false → scrollbar_color st = Color_zero)
    as Hsb0.
  { clear -Hload. intros Hclear. load_blocks Hload.
    apply load_ui_bars in Hui0 as [Hbar _].
    assert (has_scrollbar_color st = has_scrollbar_color s2
            ∧ scrollbar_color st = scrollbar_color s2) as [Hflag ->].
    { subst st. cbn. rewrite Hexport, Hinstalls. by cbn. }
    rewrite Hflag in Hclear.
    destruct (color_override j "scrollBar"); destruct Hbar as [Hset Hvalue];
      [congruence|]. rewrite Hvalue, Hgeneral. by cbn. }
  assert (has_progressbar_color st = false → progressbar_color st = Color_zero)
    as Hpb0.
  { clear -Hload. intros Hclear. load_blocks Hload.
    apply load_ui_bars in Hui0 as [_ Hbar].
    assert (has_progressbar_color st = has_progressbar_color s2
            ∧ progressbar_color st = progressbar_color s2) as [Hflag ->].
    { subst st. cbn. rewrite Hexport, Hinstalls. by cbn. }
    rewrite Hflag in Hclear.
    destruct (color_override j "progressBar"); destruct Hbar as [Hset Hvalue];
      [congruence|]. rewrite Hvalue, Hgeneral. by cbn. }
  exists (saved_document st). split; [apply Save_document_eq|].
  rewrite merge_saved_document_any; [|exact Hrange|exact Hcodec| |].
  - f_equal. unfold reloaded.
    destruct st as [f1 l f2 e ? ? f3 c ? f4 sb f5 pb ? ? ? ? ?]. cbn in *.
    destruct f1, f2, f3, f4, f5; cbn;
      rewrite ?Hromfs, ?(Hlang0 eq_refl), ?(Hscheme eq_refl),
        ?(Hsb0 eq_refl), ?(Hpb0 eq_refl); reflexivity.
  - intros Hset. by rewrite Hset in Hromfs.
  - rewrite Hbmks. apply document_bookmarks_nonempty.
Qed.

End Further.

(** ** [ComputeDefaultMenuItemCount] *)

(** X19.  For a 32-bit [menu_item_size] other than zero,
    [ComputeDefaultMenuItemCount] is the number of whole items of that size
    that fit in 560: at most 560, and zero exactly when the size exceeds
    560. *)
Theorem ComputeDefaultMenuItemCount_bounds (menu_item_size : Z) :
  (0 < menu_item_size < 2 ^ 32)%Z →
  ∃ items,
    Ui.ComputeDefaultMenuItemCount menu_item_size = Some items
    ∧ (0 ≤ items ≤ 560)%Z
    ∧ (items * menu_item_size ≤ 560 < (items + 1) * menu_item_size)%Z
    ∧ (items = 0%Z ↔ (560 < menu_item_size)%Z).
Proof.
  intros [Hpos _]. unfold Ui.ComputeDefaultMenuItemCount, Ui.DefaultMenuHeight.
  rewrite decide_False by lia. eexists. split; [reflexivity|].
  pose proof (Z.div_mod 560 menu_item_size ltac:(lia)) as Hdiv.
  pose proof (Z.mod_pos_bound 560 menu_item_size Hpos) as Hmod.
  assert (0 ≤ 560 / menu_item_size)%Z as Hge by (apply Z.div_pos; lia).
  split; [|split].
  - split; [done|]. apply Z.div_le_upper_bound; lia.
  - lia.
  - rewrite Z.div_small_iff by lia. lia.
Qed.

(** * The properties on concrete inputs *)

Section Instances.
Import Sample.

Lemma Save_ProcessSettings_roundtrip_witness :
  ∃ sd_exp' loaded,
    Save full_settings sd_empty = Ok sd_exp'
    ∧ ProcessSettings random_scheme sd_exp' = Ok loaded
    ∧ loaded
      = set_decrypt_buffer_max_size (decrypt_buffer_max_size loaded) full_settings.
Proof.
  apply (Save_ProcessSettings_roundtrip random_scheme sd_empty full_settings);
    try reflexivity.
  - unfold Settings_in_range. vm_compute. repeat split; discriminate.
  - discriminate.
  - repeat constructor; discriminate.
Defined.

(** C1 as stated fails: an unprefixed resource root comes back prefixed, a
    bookmark with an empty url does not come back, and a decrypt buffer size
    other than the default comes back as the default. *)
Lemma Save_ProcessSettings_not_identity :
  (Save unprefixed_settings sd_empty ≫= ProcessSettings random_scheme)
  = Ok full_settings
  ∧ full_settings ≠ unprefixed_settings
  ∧ (Save empty_url_settings sd_empty ≫= ProcessSettings random_scheme)
    = Ok (set_bookmarks [] full_settings)
  ∧ set_bookmarks [] full_settings ≠ empty_url_settings
  ∧ (Save small_decrypt_settings sd_empty ≫= ProcessSettings random_scheme)
    = Ok full_settings
  ∧ full_settings ≠ small_decrypt_settings.
Proof.
  split; [by vm_compute|]. split; [discriminate|].
  split; [by vm_compute|]. split; [discriminate|].
  split; [by vm_compute|]. discriminate.
Qed.

Lemma decrypt_buffer_read_from_installs_witness :
  (∃ st installs,
     merge_document random_scheme (installs_and_export_document 4096) = Ok st
     ∧ section (installs_and_export_document 4096) "installs" = Some installs
     ∧ match installs !! "decryptBufferMaxSize" with
       | Some v => ∃ z, v = JInt z
                        ∧ decrypt_buffer_max_size st = wrap buffer_size_bits z
       | None => decrypt_buffer_max_size st = (16 * 1024 * 1024)%Z
       end)
  ∧ (∃ st1 st2,
       merge_document random_scheme
         (JObject (<[ "export" := JInt 1 ]> {[ "installs" := JObject ∅ ]}))
       = Ok st1
       ∧ merge_document random_scheme
           (JObject (<[ "export" := JObject {[ "decryptBufferMaxSize" := JInt 2 ]} ]>
                       {[ "installs" := JObject ∅ ]}))
         = Ok st2
       ∧ decrypt_buffer_max_size st1 = decrypt_buffer_max_size st2).
Proof.
  split.
  - eexists.
    destruct (proj1 (decrypt_buffer_read_from_installs random_scheme)
                (installs_and_export_document 4096) _ eq_refl eq_refl)
      as (installs & Hsection & Hvalue).
    exists installs. split; [reflexivity|]. split; [exact Hsection|exact Hvalue].
  - do 2 eexists. split; [reflexivity|]. split; [reflexivity|].
    exact (proj1 (proj2 (decrypt_buffer_read_from_installs random_scheme))
             {[ "installs" := JObject ∅ ]} (JInt 1)
             (JObject {[ "decryptBufferMaxSize" := JInt 2 ]}) _ _
             eq_refl eq_refl).
Defined.

(** C2 at the document with an [export] section and no [installs]
    section: there is no [installs.decryptBufferMaxSize], yet the load does
    not end with the 16 MiB default; the read-only lookup of ["installs"]
    under the test for ["export"] ends it without a [Settings] value. *)
Lemma export_without_installs_fails :
  count (export_only_document 1) "export" = true
  ∧ member (export_only_document 1) "installs" "decryptBufferMaxSize" = None
  ∧ merge_document random_scheme (export_only_document 1)
    = Fail (missing_key "installs")
  ∧ ¬ ∃ st, merge_document random_scheme (export_only_document 1) = Ok st
            ∧ decrypt_buffer_max_size st = (16 * 1024 * 1024)%Z.
Proof.
  split; [reflexivity|]. split; [reflexivity|]. split; [reflexivity|].
  intros (st & Hload & _). discriminate Hload.
Qed.

Lemma external_romfs_normalized_witness :
  (∃ st, merge_document random_scheme (romfs_document "ext") = Ok st
         ∧ has_external_romfs st = true
         ∧ external_romfs st = "sdmc:/ext")
  ∧ external_romfs_for "sdmc:/themes" = "sdmc:/themes"
  ∧ external_romfs_for "/themes" = "sdmc:/themes".
Proof.
  split; [|split].
  - eexists. split; [reflexivity|].
    destruct (proj2 (proj2 (external_romfs_normalized random_scheme))
                (romfs_document "ext") _ eq_refl) as [Hflag Htext].
    split.
    + apply Hflag. exists "ext". split; [reflexivity|discriminate].
    + rewrite (Htext "ext" eq_refl); [reflexivity|discriminate].
  - apply (proj1 (proj2 (proj1 (external_romfs_normalized random_scheme)
                           "sdmc:/themes"))).
    reflexivity.
  - rewrite (proj2 (proj2 (proj1 (external_romfs_normalized random_scheme)
                             "/themes"))); [reflexivity|discriminate].
Defined.

Lemma bookmarks_filtered_witness :
  (∃ st, merge_document random_scheme bookmarks_document = Ok st
         ∧ Forall nonempty_bookmark (bookmarks st)
         ∧ bookmarks st = document_bookmarks bookmarks_document)
  ∧ (∃ s', load_web bookmarks_document full_settings = Ok s'
           ∧ bookmarks s'
             = bookmarks full_settings ++ [MkWebBookmark "B" "http://x"]).
Proof.
  split.
  - eexists. split; [reflexivity|].
    exact (proj1 (bookmarks_filtered random_scheme) bookmarks_document _ eq_refl).
  - apply (proj1 (proj2 (bookmarks_filtered random_scheme))
             bookmarks_document full_settings
             [bookmark_entry_json "A" EmptyString;
              bookmark_entry_json "B" "http://x"]); [reflexivity|].
    repeat constructor; eexists; (split; [reflexivity|]);
      split; right; eexists; reflexivity.
Defined.

Lemma ProcessSettings_defaults_witness :
  ∃ settings,
    ProcessSettings random_scheme sd_empty = Ok settings
    ∧ menu_item_size settings = 80%Z
    ∧ copy_buffer_max_size settings = (4 * 1024 * 1024)%Z
    ∧ decrypt_buffer_max_size settings = (16 * 1024 * 1024)%Z
    ∧ ignore_required_fw_ver settings = true
    ∧ use_12h_time settings = false
    ∧ ignore_hidden_files settings = false
    ∧ show_deletion_prompt_after_install settings = false
    ∧ has_custom_lang settings = false
    ∧ has_external_romfs settings = false
    ∧ has_custom_scheme settings = false
    ∧ has_scrollbar_color settings = false
    ∧ has_progressbar_color settings = false
    ∧ bookmarks settings = [].
Proof.
  apply (ProcessSettings_defaults random_scheme sd_empty). left. reflexivity.
Defined.

Lemma PathForResource_precedence_witness :
  PathForResource romfs sd_with_resource full_settings "foo.json"
  = "sdmc:/ext/foo.json"
  ∧ PathForResource romfs sd_empty full_settings "foo.json" = "romfs:/foo.json".
Proof.
  split.
  - apply (proj1 (PathForResource_precedence romfs sd_with_resource
                    full_settings "foo.json")).
    split; reflexivity.
  - apply (proj2 (PathForResource_precedence romfs sd_empty
                    full_settings "foo.json")).
    right. reflexivity.
Defined.

Lemma GetLanguage_cached_witness :
  GetLanguage full_settings (Process_start (Some 1%Z))
  = Ok (Es, Process_start (Some 1%Z))
  ∧ GetLanguage (set_has_custom_lang false full_settings)
      (Process_start (Some 2%Z))
    = Ok (De, german_process)
  ∧ GetLanguage (set_has_custom_lang false full_settings) german_process
    = Ok (De, german_process)
  ∧ (∃ langs p',
       GetLanguage_calls [set_has_custom_lang false full_settings;
                          full_settings;
                          set_has_custom_lang false full_settings]
         (Process_start (Some 2%Z)) = Ok (langs, p')
       ∧ (host_queries p' ≤ 1)%nat
       ∧ langs = [De; Es; De])
  ∧ is_Ok (GetLanguage_calls [set_has_custom_lang false full_settings;
                              full_settings]
             (Process_start (Some 0%Z))).
Proof.
  split; [|split; [|split; [|split]]].
  - apply (proj1 GetLanguage_cached full_settings). reflexivity.
  - apply (proj1 (proj2 (proj2 GetLanguage_cached))
             (set_has_custom_lang false full_settings)
             (Process_start (Some 2%Z)) 2%Z SysDE); reflexivity.
  - apply (proj1 (proj2 GetLanguage_cached)
             (set_has_custom_lang false full_settings) german_process);
      reflexivity.
  - do 2 eexists. split; [reflexivity|].
    destruct (proj1 (proj2 (proj2 (proj2 GetLanguage_cached)))
                [set_has_custom_lang false full_settings; full_settings;
                 set_has_custom_lang false full_settings]
                (Some 2%Z) _ _ eq_refl) as [Hqueries Hlangs].
    split; [exact Hqueries|exact Hlangs].
  - apply (proj2 (proj2 (proj2 (proj2 GetLanguage_cached)))
             [set_has_custom_lang false full_settings; full_settings]
             0%Z SysENUS).
    reflexivity.
Defined.

Lemma partial_scheme_override_witness :
  ∃ st, merge_document random_scheme (background_document "#11223344") = Ok st
        ∧ has_custom_scheme st = true
        ∧ FromHex "#11223344" = Some (bg (custom_scheme st))
        ∧ base (custom_scheme st) = base random_scheme
        ∧ base_focus (custom_scheme st) = base_focus random_scheme
        ∧ text (custom_scheme st) = text random_scheme.
Proof.
  eexists. split; [reflexivity|].
  apply (proj1 (partial_scheme_override random_scheme
                  (background_document "#11223344") _ eq_refl) "#11223344");
    [reflexivity|discriminate].
Defined.

Lemma menu_item_size_unvalidated_witness :
  ∃ st, merge_document random_scheme (menu_item_size_document (2 ^ 32 + 7)) = Ok st
        ∧ menu_item_size st = 7%Z
        ∧ Ui.ComputeDefaultMenuItemCount (menu_item_size st) = Some 80%Z.
Proof.
  eexists. split; [reflexivity|].
  pose proof (proj1 (menu_item_size_unvalidated random_scheme)
                (menu_item_size_document (2 ^ 32 + 7)) _ (2 ^ 32 + 7)%Z
                eq_refl eq_refl) as Hsize.
  split; [exact Hsize|].
  change (Ui.ComputeDefaultMenuItemCount 7 = Some (560 / 7)%Z).
  apply (proj1 (proj2 (proj2 (proj2 (menu_item_size_unvalidated random_scheme))))).
  - vm_compute. split; [discriminate|reflexivity].
  - discriminate.
Defined.

End Instances.

(** * The further properties on concrete inputs *)

Section FurtherInstances.
Import Sample.

Lemma ColorToHex_injective_witness :
  ColorToHex grey = ColorToHex (MkColor x80 x80 x80 xff)
  ∧ grey = MkColor x80 x80 x80 xff.
Proof.
  split; [reflexivity|].
  apply (ColorToHex_injective grey (MkColor x80 x80 x80 xff)). reflexivity.
Defined.

Lemma Save_load_any_flags_witness :
  (∃ doc, Save_document full_settings = Ok doc
          ∧ merge_document random_scheme doc
            = Ok (reloaded random_scheme full_settings))
  ∧ (∃ doc, Save_document bare_settings = Ok doc
            ∧ merge_document random_scheme doc
              = Ok (reloaded random_scheme bare_settings)).
Proof.
  split.
  - apply (Save_load_any_flags random_scheme full_settings).
    + unfold Settings_in_range. vm_compute. repeat split; discriminate.
    + intros _. split; [discriminate|reflexivity].
    + intros _. reflexivity.
    + repeat constructor; discriminate.
  - apply (Save_load_any_flags random_scheme bare_settings).
    + unfold Settings_in_range. vm_compute. repeat split; discriminate.
    + discriminate.
    + discriminate.
    + constructor.
Defined.

Lemma Save_load_decrypt_default_witness :
  ∃ doc loaded,
    Save_document small_decrypt_settings = Ok doc
    ∧ merge_document random_scheme doc = Ok loaded
    ∧ decrypt_buffer_max_size small_decrypt_settings = 1%Z
    ∧ decrypt_buffer_max_size loaded = (16 * 1024 * 1024)%Z.
Proof.
  do 2 eexists. split; [reflexivity|]. split; [reflexivity|].
  split; [reflexivity|].
  apply (Save_load_decrypt_default random_scheme small_decrypt_settings _ _
           eq_refl eq_refl).
Defined.


Lemma load_reads_known_sections_witness :
  merge_document random_scheme
    (JObject (<[ "theme" := JString "dark" ]> {[ "ui" := JObject ∅ ]}))
  = merge_document random_scheme (JObject {[ "ui" := JObject ∅ ]}).
Proof.
  apply (proj1 (load_reads_known_sections random_scheme {[ "ui" := JObject ∅ ]})
           "theme" (JString "dark")).
  intros Hin. repeat (apply elem_of_cons in Hin as [Heq|Hin]; [discriminate|]).
  by apply elem_of_nil in Hin.
Defined.

Lemma load_toggles_witness :
  ∃ st, merge_document random_scheme toggles_document = Ok st
        ∧ use_12h_time st = true
        ∧ ignore_hidden_files st = false
        ∧ ignore_required_fw_ver st = false
        ∧ show_deletion_prompt_after_install st = false.
Proof.
  eexists. split; [reflexivity|].
  destruct (load_toggles random_scheme toggles_document _ eq_refl)
    as (H12 & Hhidden & Hfw & Hprompt).
  vm_compute in H12, Hhidden, Hfw, Hprompt.
  repeat split; congruence.
Defined.


Lemma load_bar_colors_witness :
  ∃ st, merge_document random_scheme bars_document = Ok st
        ∧ (has_scrollbar_color st = true
           ∧ FromHex "#01020304" = Some (scrollbar_color st))
        ∧ has_progressbar_color st = false.
Proof.
  eexists. split; [reflexivity|].
  exact (load_bar_colors random_scheme bars_document _ eq_refl).
Defined.

Lemma load_custom_language_witness :
  ∃ st, merge_document random_scheme language_document = Ok st
        ∧ has_custom_lang st = true
        ∧ custom_lang st = De.
Proof.
  eexists. split; [reflexivity|].
  exact (load_custom_language random_scheme language_document _ eq_refl).
Defined.

Lemma load_section_kinds_witness :
  merge_document random_scheme (JObject {[ "general" := JInt 5 ]})
  = Fail (type_error 306)
  ∧ ¬ is_Ok (merge_document random_scheme (JObject {[ "ui" := JInt 5 ]}))
  ∧ merge_document random_scheme (JObject {[ "web" := JInt 5 ]})
    = merge_document random_scheme (JObject (delete "web" {[ "web" := JInt 5 ]})).
Proof.
  assert (not_object (JInt 5)) as Hkind by (intros sub; discriminate).
  split; [|split].
  - apply (proj1 (load_section_kinds random_scheme {[ "general" := JInt 5 ]}
                    (JInt 5) Hkind)).
    reflexivity.
  - apply (proj1 (proj2 (load_section_kinds random_scheme {[ "ui" := JInt 5 ]}
                           (JInt 5) Hkind))).
    left. reflexivity.
  - apply (proj2 (proj2 (load_section_kinds random_scheme {[ "web" := JInt 5 ]}
                           (JInt 5) Hkind))).
    reflexivity.
Defined.

Lemma bookmark_entries_checked_witness :
  is_Ok (load_web bookmarks_document full_settings)
  ∧ ¬ is_Ok (load_web text_bookmark_document full_settings).
Proof.
  split.
  - apply (bookmark_entries_checked bookmarks_document full_settings
             [bookmark_entry_json "A" EmptyString;
              bookmark_entry_json "B" "http://x"] eq_refl).
    repeat constructor; eexists; (split; [reflexivity|]);
      split; right; eexists; reflexivity.
  - intros Hok.
    apply (bookmark_entries_checked text_bookmark_document full_settings
             [JString "http://x"] eq_refl) in Hok.
    apply Forall_cons in Hok as [(m & Hm & _) _]. discriminate Hm.
Defined.

Lemma ReadJSONResource_precedence_witness :
  ReadJSONResource romfs sd_with_resource full_settings "foo.json"
  = Ok Json.object
  ∧ ReadJSONResource romfs sd_with_bad_resource full_settings "foo.json"
    = Fail unreadable_document
  ∧ ReadJSONResource romfs sd_with_resource bare_settings "foo.json"
    = ReadJSON romfs "romfs:/foo.json".
Proof.
  split; [|split].
  - rewrite (proj1 (proj2 (ReadJSONResource_precedence romfs sd_with_resource
                             full_settings "foo.json")) eq_refl eq_refl romfs).
    reflexivity.
  - apply (proj1 (proj2 (proj2 (ReadJSONResource_precedence romfs
                                  sd_with_bad_resource full_settings "foo.json")))
             eq_refl eq_refl).
  - apply (proj2 (proj2 (proj2 (ReadJSONResource_precedence romfs
                                  sd_with_resource bare_settings "foo.json")))
             eq_refl sd_with_resource).
Defined.

Lemma EnsureDefaultLanguage_once_witness :
  EnsureDefaultLanguage german_process = Ok german_process
  ∧ GetLanguage bare_settings (Process_start None) = Fail fatal_assert
  ∧ GetLanguage full_settings (Process_start None)
    = Ok (Es, Process_start None).
Proof.
  split; [|split].
  - apply (proj1 EnsureDefaultLanguage_once (Process_start (Some 2%Z))
             german_process eq_refl).
  - apply (proj2 (proj2 EnsureDefaultLanguage_once (Process_start None)
                    eq_refl (or_introl eq_refl)) bare_settings).
  - apply (proj2 (proj2 EnsureDefaultLanguage_once (Process_start None)
                    eq_refl (or_introl eq_refl)) full_settings).
Defined.

Lemma ComputeDefaultMenuItemCount_bounds_witness :
  ∃ items,
    Ui.ComputeDefaultMenuItemCount 80 = Some items
    ∧ (0 ≤ items ≤ 560)%Z
    ∧ (items * 80 ≤ 560 < (items + 1) * 80)%Z
    ∧ (items = 0%Z ↔ (560 < 80)%Z).
Proof.
  apply (ComputeDefaultMenuItemCount_bounds 80).
  split; reflexivity.
Defined.

Lemma loaded_resource_paths_witness :
  ∃ st, merge_document random_scheme (romfs_document "ext") = Ok st
        ∧ substring 0 6 (external_romfs st) = "sdmc:/"
        ∧ (PathForResource romfs sd_with_resource st "foo.json"
           = "romfs:/foo.json"
           ∨ substring 0 6 (PathForResource romfs sd_with_resource st "foo.json")
             = "sdmc:/").
Proof.
  eexists. split; [reflexivity|].
  exact (loaded_resource_paths random_scheme (romfs_document "ext") _
           romfs sd_with_resource "foo.json" eq_refl).
Defined.

Lemma load_Save_load_witness :
  ∃ st doc,
    merge_document random_scheme language_document = Ok st
    ∧ Save_document st = Ok doc
    ∧ merge_document random_scheme doc
      = Ok (set_decrypt_buffer_max_size (16 * 1024 * 1024) st).
Proof.
  eexists.
  destruct (load_Save_load random_scheme language_document _ eq_refl)
    as (doc & Hsave & Hreload).
  - intros _. split; [discriminate|reflexivity].
  - exists doc. split; [reflexivity|]. split; [exact Hsave|exact Hreload].
Defined.

End FurtherInstances.
